(** * PayCoin node: configuration constants, the WASM contract helper and
      the contract deploy / interact routes

    A shallow embedding of [config.js] and of the contract-related parts of
    the Express server ([index.js]): [runWasmContract], the
    [POST /api/contract/deploy] handler and the [POST /api/contract/interact]
    handler.

    JavaScript numbers are IEEE-754 binary64 values ([spec_float] with
    precision 53 and maximal exponent 1024); JavaScript objects are finite
    maps from property names to values; the objects that the code copies and
    mutates live in an explicit heap.  Library functions the code calls but
    does not define (string/number conversion, base64, the WebAssembly
    engine, the wallet, the cargo build) are fields of records the
    definitions are parameterised by. *)

From Stdlib Require Import ZArith String List Bool Ascii.
From Stdlib Require Import Strings.Byte DecimalString.
From Stdlib Require Import Floats.SpecFloat.
From stdpp Require Import gmap strings list fin_maps.

Set Warnings "-register-all".
Local Open Scope string_scope.

(* ================================================================== *)
(** * JavaScript values and the operators the code uses on them        *)
(* ================================================================== *)

Module JS.

(** Binary64. *)
Definition prec : Z := 53.
Definition emax : Z := 1024.

Definition number := spec_float.

(** The number denoted by an integer literal (round to nearest even, exact
    below 2^53). *)
Definition num (z : Z) : number := binary_normalize prec emax z 0 false.

(** The number denoted by a decimal literal [d * 10^-k], for [d] and
    [10^k] below 2^53: the correctly rounded quotient. *)
Definition decimal (d : Z) (k : nat) : number :=
  SFdiv prec emax (num d) (num (10 ^ Z.of_nat k)).

Definition NaN : number := S754_nan.

Definition add : number -> number -> number := SFadd prec emax.
Definition mul : number -> number -> number := SFmul prec emax.

(** [a < b], [a > b] and [a <= b] on numbers.  [a > b] is evaluated as
    [b < a]; [a <= b] is false when [b < a] holds or is undefined (a NaN
    operand) and true otherwise. *)
Definition lt (a b : number) : bool := SFltb a b.
Definition gt (a b : number) : bool := SFltb b a.
Definition le (a b : number) : bool :=
  match SFcompare b a with
  | Some Lt | None => false
  | Some _ => true
  end.

Definition is_nan (n : number) : bool :=
  match n with S754_nan => true | _ => false end.

Definition is_zero (n : number) : bool :=
  match n with S754_zero _ => true | _ => false end.

(** The integer a number is, when it is one. *)
Definition integer_value (n : number) : option Z :=
  match n with
  | S754_zero _ => Some 0%Z
  | S754_finite s m e =>
      let v := match e with
               | Zneg k => if (Z.pos m mod 2 ^ Z.pos k =? 0)%Z
                           then Some (Z.pos m / 2 ^ Z.pos k)%Z else None
               | _ => Some (Z.pos m * 2 ^ e)%Z
               end in
      (fun z : Z => if s then (- z)%Z else z) <$> v
  | _ => None
  end.

(** The language values that occur in request bodies, contract state and
    call results. *)
Inductive value :=
  | Undefined
  | Null
  | Boolean (b : bool)
  | Num (n : number)
  | Str (s : string)
  | Arr (l : list value)
  | Obj (o : gmap string value).

Abbreviation object := (gmap string value).

(** Reading a property that may be absent: [o.k]. *)
Definition get (o : object) (k : string) : value :=
  default Undefined (o !! k).

(** [ToBoolean]. *)
Definition truthy (v : value) : bool :=
  match v with
  | Undefined | Null => false
  | Boolean b => b
  | Num n => negb (is_nan n || is_zero n)
  | Str s => negb (String.eqb s "")
  | Arr _ | Obj _ => true
  end.

Definition is_array (v : value) : bool :=
  match v with Arr _ => true | _ => false end.

(** The two conversions between strings and numbers are the language's own
    ([StringToNumber], [Number::toString]); they are taken as given. *)
Record Builtins := {
  StringToNumber : string -> number;
  NumberToString : number -> string
}.

Section Conversions.
Variable bi : Builtins.

(** [ToString]; an array joins its elements with commas, printing
    [null] and [undefined] elements as the empty string. *)
Fixpoint ToString (v : value) : string :=
  match v with
  | Undefined => "undefined"
  | Null => "null"
  | Boolean true => "true"
  | Boolean false => "false"
  | Num n => NumberToString bi n
  | Str s => s
  | Arr l =>
      String.concat ","
        (List.map (fun x => match x with
                            | Undefined | Null => ""
                            | _ => ToString x
                            end) l)
  | Obj _ => "[object Object]"
  end.

(** [ToNumber] / [Number(v)]; arrays and objects are first converted to
    their string. *)
Definition ToNumber (v : value) : number :=
  match v with
  | Undefined => NaN
  | Null => num 0
  | Boolean true => num 1
  | Boolean false => num 0
  | Num n => n
  | Str s => StringToNumber bi s
  | Arr _ | Obj _ => StringToNumber bi (ToString v)
  end.

(** [Number(v) || 0]. *)
Definition NumberOrZero (v : value) : number :=
  let n := ToNumber v in
  if truthy (Num n) then n else num 0.

(** The operators applied to a request field and a number: the field is
    converted with [ToNumber] first. *)
Definition lt_vn (v : value) (n : number) : bool := lt (ToNumber v) n.
Definition le_vn (v : value) (n : number) : bool := le (ToNumber v) n.
Definition gt_nv (n : number) (v : value) : bool := gt n (ToNumber v).
Definition mul_vn (v : value) (n : number) : number := mul (ToNumber v) n.

End Conversions.

End JS.

(* ================================================================== *)
(** * config.js                                                        *)
(* ================================================================== *)

Module Config.
Import JS.

Definition MINE_RATE : number := num 1000.
Definition INITIAL_DIFFICULTY : number := num 3.

Record GenesisData := {
  timestamp : number;
  lastHash : string;
  hash : string;
  difficulty : number;
  nonce : number;
  data : list value
}.

Definition GENESIS_DATA : GenesisData := {|
  timestamp := num 1;
  lastHash := "------";
  hash := "hash-one";
  difficulty := INITIAL_DIFFICULTY;
  nonce := num 0;
  data := []
|}.

Definition STARTING_BALANCE : number := num 1000.

Record RewardInput := { address : string }.
Definition REWARD_INPUT : RewardInput := {| address := "*authorized_reward" |}.

Definition MINING_REWARD : number := num 50.

Definition FIXED_GAS_PRICE : number := decimal 1 1.

End Config.

(* ================================================================== *)
(** * The WebAssembly engine, as the server sees it                    *)
(* ================================================================== *)

Module Wasm.
Import JS.

Definition bytes := list byte.

(** What a module and an imported function hand each other: a language
    value, or a reference to an object of the platform. *)
Inductive hostval :=
  | Plain (v : value)
  | Ref (r : positive).

(** The objects of the platform that exist apart from the application's
    (the built-in prototypes and constructors and what built-ins
    allocate), each with its own properties and whether it is frozen. *)
Record HostObject := { ho_frozen : bool; ho_properties : object }.

Abbreviation World := (gmap positive HostObject).

(** A function of the host, as instantiation resolves it for a declared
    import: called with arguments, it may change the platform's objects,
    and returns or throws ([None]).  What the helper passes on to a module
    are argument values; no reference to an object of the application's
    heap is handed to a host function. *)
Definition HostFn := list hostval -> World -> option hostval * World.

(** The own properties of an import object: module name, then field
    name. *)
Abbreviation ImportObject := (gmap string (gmap string HostFn)).

(** What a call of an exported function does: it returns a value or it
    throws (a trap, or what an imported function threw). *)
Inductive outcome :=
  | Returned (v : value)
  | Trapped.

Inductive extern_kind := KFunction | KTable | KMemory | KGlobal.

(** An entry of [WebAssembly.Module.exports(mod)] and of
    [WebAssembly.Module.imports(mod)]. *)
Record ExportDesc := { ex_name : string; ex_kind : extern_kind }.

Record ImportDesc := {
  im_module : string;
  im_name : string;
  im_kind : extern_kind
}.

(** The code of a function: it computes on its own until it returns,
    traps, or calls the import with a given index and goes on with what
    the import returned.  Code reaches the host in no other way.  What it
    returns is given as a language value, as the caller stores it. *)
Inductive prog :=
  | Return (v : value)
  | Unreachable
  | CallImport (i : nat) (args : list hostval) (k : hostval -> prog).

(** A compiled module: the imports it declares, its exports in declaration
    order, its start function ([Return Undefined] when it has none) and
    the code of each exported function applied to arguments. *)
Record Module_ := {
  mod_imports : list ImportDesc;
  mod_exports : list ExportDesc;
  mod_start : prog;
  mod_code : string -> list value -> prog
}.

(** Running code against the resolved imports. *)
Fixpoint run_prog (hosts : list HostFn) (p : prog) (w : World)
  : outcome * World :=
  match p with
  | Return v => (Returned v, w)
  | Unreachable => (Trapped, w)
  | CallImport i args k =>
      match hosts !! i with
      | None => (Trapped, w)
      | Some h =>
          match h args w with
          | (Some r, w') => run_prog hosts (k r) w'
          | (None, w') => (Trapped, w')
          end
      end
  end.

(** A property of [instance.exports]. *)
Inductive export_value :=
  | Callable (f : list value -> World -> outcome * World)
  | NotCallable (k : extern_kind).

Record Instance := { inst_exports : gmap string export_value }.

(** [typeof x === 'function'] for [x = instance.exports[name]]; an absent
    property is [undefined]. *)
Definition typeof_function (x : option export_value) : bool :=
  match x with
  | Some (Callable _) => true
  | _ => false
  end.

(** The parts of the platform that turn text into bytes and bytes into
    modules: [Buffer.from(s, 'base64')], [buf.toString('base64')] and
    [WebAssembly.compile] ([None] when it rejects with a
    [CompileError]); and what reading a path of property names finds,
    starting from the object every object literal inherits from, that can
    stand for an import of the given kind: a function for a function
    import, and for another kind (a number for a global, say) the function
    that hands the value out. *)
Record Runtime := {
  base64_decode : string -> bytes;
  base64_encode : bytes -> string;
  compile : bytes -> option Module_;
  inherited : list string -> extern_kind -> option HostFn
}.

(** Instantiation reads [importObject[module][name]] with ordinary
    property reads, which find inherited properties too: a module the
    import object does not have itself is looked for in what every object
    inherits, and so is a field its module object does not have itself. *)
Definition resolve_import (rt : Runtime) (io : ImportObject) (d : ImportDesc)
  : option HostFn :=
  match io !! im_module d with
  | Some o =>
      match o !! im_name d with
      | Some f => match im_kind d with KFunction => Some f | _ => None end
      | None => inherited rt [im_name d] (im_kind d)
      end
  | None => inherited rt [im_module d; im_name d] (im_kind d)
  end.

Fixpoint resolve_imports (rt : Runtime) (io : ImportObject)
    (decls : list ImportDesc) : option (list HostFn) :=
  match decls with
  | [] => Some []
  | d :: rest =>
      match resolve_import rt io d, resolve_imports rt io rest with
      | Some f, Some fs => Some (f :: fs)
      | _, _ => None
      end
  end.

Definition export_of (m : Module_) (hosts : list HostFn) (d : ExportDesc)
  : string * export_value :=
  (ex_name d,
   match ex_kind d with
   | KFunction => Callable (fun args => run_prog hosts (mod_code m (ex_name d) args))
   | k => NotCallable k
   end).

Inductive link_error := LinkError | StartTrapped.

(** [WebAssembly.instantiate(module, importObject)]: the imports are
    resolved, then the start function runs. *)
Definition instantiate (rt : Runtime) (m : Module_) (io : ImportObject)
    (w : World) : (link_error + Instance) * World :=
  match resolve_imports rt io (mod_imports m) with
  | None => (inl LinkError, w)
  | Some hosts =>
      match run_prog hosts (mod_start m) w with
      | (Trapped, w') => (inl StartTrapped, w')
      | (Returned _, w') =>
          (inr {| inst_exports :=
                    list_to_map (List.map (export_of m hosts) (mod_exports m)) |},
           w')
      end
  end.

(** The names [WebAssembly.Module.exports(mod)] lists with kind
    ['function'], in declaration order. *)
Definition is_function_desc (d : ExportDesc) : bool :=
  match ex_kind d with KFunction => true | _ => false end.

Definition function_export_names (m : Module_) : list string :=
  List.map ex_name (List.filter is_function_desc (mod_exports m)).

End Wasm.

(* ================================================================== *)
(** * index.js: the WASM contract execution helper                     *)
(* ================================================================== *)

Module Engine.
Import JS Wasm.

(** Objects that are copied and assigned to live in a heap. *)
Definition loc := positive.
Abbreviation heap := (gmap loc object).

(** What the helper asks of the WebAssembly engine, in order. *)
Inductive event :=
  | EvCompile (b : bytes)
  | EvInstantiate (io : ImportObject)
  | EvCall (name : string) (args : list value).

(** What it can throw. *)
Inductive exn :=
  | Error (msg : string)
  | CompileError
  | InstantiateError (e : link_error)
  | RuntimeError.

(** The application's objects, the requests made to the engine, and the
    platform's own objects. *)
Record store := { st_heap : heap; st_log : list event; st_world : World }.

(** Computations that read and write the heap, log engine requests and
    may throw.  A throw keeps the store: exceptions do not undo writes. *)
Definition M (A : Type) : Type := store -> (exn + A) * store.

Definition ret {A} (a : A) : M A := fun s => (inr a, s).

Definition bind {A B} (m : M A) (k : A -> M B) : M B :=
  fun s =>
    match m s with
    | (inr a, s') => k a s'
    | (inl e, s') => (inl e, s')
    end.

Definition throw {A} (e : exn) : M A := fun s => (inl e, s).

Definition emit (ev : event) : M unit :=
  fun s => (inr tt, {| st_heap := st_heap s; st_log := (st_log s ++ [ev])%list;
                       st_world := st_world s |}).

Definition with_world (s : store) (w : World) : store :=
  {| st_heap := st_heap s; st_log := st_log s; st_world := w |}.

#[local] Notation "x <- m ;; k" := (bind m (fun x => k))
  (at level 100, m at next level, right associativity).
#[local] Notation "m ;;; k" := (bind m (fun _ => k))
  (at level 100, right associativity).

(** The object a reference denotes; [undefined] and [null] have no own
    properties. *)
Definition deref (h : heap) (r : option loc) : object :=
  default ∅ (r ≫= (h !!.)).

(** [{ ...r }]: a new object with the own properties of [r]. *)
Definition spread (r : option loc) : M loc :=
  fun s =>
    let l := fresh (dom (st_heap s)) in
    (inr l, {| st_heap := <[l := deref (st_heap s) r]> (st_heap s);
               st_log := st_log s;
               st_world := st_world s |}).

(** [l.k = v]. *)
Definition set_property (l : loc) (k : string) (v : value) : M unit :=
  fun s =>
    (inr tt, {| st_heap := <[l := <[k := v]> (deref (st_heap s) (Some l))]> (st_heap s);
                st_log := st_log s;
                st_world := st_world s |}).

Record ContractDoc := {
  codeWasmBase64 : string;
  state : option loc
}.

Record RunResult := {
  newState : loc;
  usedGas : number;
  result : value
}.

Section Helper.
Variable bi : Builtins.
Variable rt : Runtime.

Definition wasm_compile (b : bytes) : M Module_ :=
  emit (EvCompile b) ;;;
  match compile rt b with
  | Some m => ret m
  | None => throw CompileError
  end.

Definition wasm_instantiate (m : Module_) (io : ImportObject) : M Instance :=
  emit (EvInstantiate io) ;;;
  fun s =>
    match instantiate rt m io (st_world s) with
    | (inr i, w) => (inr i, with_world s w)
    | (inl e, w) => (inl (InstantiateError e), with_world s w)
    end.

(** [x(...args)] for [x = instance.exports[name]], which is callable
    where this is used. *)
Definition call (x : option export_value) (name : string) (args : list value)
  : M value :=
  emit (EvCall name args) ;;;
  match x with
  | Some (Callable f) =>
      fun s =>
        match f args (st_world s) with
        | (Returned v, w) => (inr v, with_world s w)
        | (Trapped, w) => (inl RuntimeError, with_world s w)
        end
  | _ => throw RuntimeError
  end.

Definition runWasmContract (doc : ContractDoc) (functionName : value)
    (functionArgs : list value) (gasLimit : value) : M RunResult :=
  let wasmBuffer := base64_decode rt (codeWasmBase64 doc) in
  let gasUsed := num 0 in
  newState <- spread (state doc) ;;
  let resultVal := Null in
  wasmModule <- wasm_compile wasmBuffer ;;
  instance <- wasm_instantiate wasmModule ∅ ;;
  let name := ToString bi functionName in
  if truthy functionName && typeof_function (inst_exports instance !! name)
  then
    let gasUsed := add gasUsed (num 200) in
    if gt_nv bi gasUsed gasLimit
    then throw (Error "Out of gas before function call")
    else
      resultVal <- call (inst_exports instance !! name) name functionArgs ;;
      set_property newState "lastCallResult" resultVal ;;;
      ret {| newState := newState; usedGas := gasUsed; result := resultVal |}
  else
    let codeSize := num (Z.of_nat (length wasmBuffer)) in
    let gasUsed := add gasUsed codeSize in
    if gt_nv bi gasUsed gasLimit
    then throw (Error "Out of gas (code size cost too high)")
    else ret {| newState := newState; usedGas := gasUsed; result := resultVal |}.

(** The store once the state is copied and the module compiled and
    instantiated: one new object, two requests to the engine, and what
    instantiation did to the platform's objects. *)
Definition prepared (doc : ContractDoc) (s : store) : store :=
  let b := base64_decode rt (codeWasmBase64 doc) in
  {| st_heap := <[fresh (dom (st_heap s)) := deref (st_heap s) (state doc)]> (st_heap s);
     st_log := (st_log s ++ [EvCompile b; EvInstantiate ∅])%list;
     st_world := match compile rt b with
                 | Some m => (instantiate rt m ∅ (st_world s)).2
                 | None => st_world s
                 end |}.

End Helper.

(** Every object of [h] is still there, with the same properties, in
    [h']. *)
Definition preserved (h h' : heap) : Prop :=
  forall l, l ∈ dom h -> h' !! l = h !! l.

(** What a caller can see of a run: the error, or the properties of the
    returned state together with the gas used and the result. *)
Definition observe (r : (exn + RunResult) * store)
  : exn + (object * number * value) :=
  match r with
  | (inl e, _) => inl e
  | (inr res, s') =>
      inr (deref (st_heap s') (Some (newState res)), usedGas res, result res)
  end.

Definition is_call (ev : event) : bool :=
  match ev with EvCall _ _ => true | _ => false end.

(** The function calls a log records. *)
Definition calls (log : list event) : list event := List.filter is_call log.

End Engine.

(* ================================================================== *)
(** * index.js: the contract deploy and interact routes                *)
(* ================================================================== *)

Module Server.
Import JS Wasm Config.

Record EphemeralKey := { privateKey : string; publicKey : string }.

(** [req.user], as the authentication middleware leaves it. *)
Record User := { userId : string; walletAddress : string }.

Record Request := { user : User; body : object }.

Record Response := { status : nat; json : value }.

(** The user's wallet as the routes set it up. *)
Record Wallet := {
  wallet_keyPair : string;
  wallet_publicKey : string;
  wallet_balance : number
}.

Definition Chain := list value.

(** How writing the crate to a temporary directory and running
    [cargo build] on it ends: the build fails with its [stderr], the
    artifact is missing, or the artifact is read. *)
Inductive build_result :=
  | BuildFailed (stderr : string)
  | WasmMissing
  | Built (wasm : bytes).

(** The collaborators of the routes: the session key store, the wallet
    module, the build, the source of contract addresses (random bytes and
    the clock) and the source codec. *)
Record Env := {
  ephemeralKeys : gmap string EphemeralKey;
  calculateBalance : Chain -> string -> number;
  createTransaction : Wallet -> string -> number -> Chain -> string + object;
  cargoBuild : value -> build_result;
  freshContractAddress : string;
  encode : value -> value
}.

(** The calls a handler makes that create, pool or publish something. *)
Inductive effect :=
  | CargoBuild (rustCode : value)
  | CreateTransaction (w : Wallet) (recipient : string) (amount : number)
  | SetTransaction (tx : object)
  | BroadcastTransaction (tx : object).

(** A handler performs effects until it sends its response. *)
Definition H (A : Type) : Type := list effect * (Response + A).

Definition ret {A} (a : A) : H A := ([], inr a).

Definition bind {A B} (m : H A) (k : A -> H B) : H B :=
  match m with
  | (es, inl r) => (es, inl r)
  | (es, inr a) => let '(es', x) := k a in ((es ++ es')%list, x)
  end.

Definition perform (e : effect) : H unit := ([e], inr tt).

(** [return res.status(st).json(v)]. *)
Definition reply {A} (st : nat) (v : value) : H A :=
  ([], inl {| status := st; json := v |}).

(** [if (c) return res.status(st).json(v);] *)
Definition reject_if (c : bool) (st : nat) (v : value) : H unit :=
  if c then reply st v else ret tt.

#[local] Notation "x <- m ;; k" := (bind m (fun x => k))
  (at level 100, m at next level, right associativity).
#[local] Notation "m ;;; k" := (bind m (fun _ => k))
  (at level 100, right associativity).

Definition run (h : H Response) : list effect * Response :=
  match h with
  | (es, inl r) | (es, inr r) => (es, r)
  end.

Definition message (s : string) : value := Obj {[ "message" := Str s ]}.

Section Routes.
Variable bi : Builtins.
Variable rt : Runtime.
Variable env : Env.
Variable chain : Chain.

(** [new Wallet()] with the session key, the user's address and the
    balance computed from the chain. *)
Definition userWalletOf (eph : EphemeralKey) (u : User) : Wallet :=
  {| wallet_keyPair := privateKey eph;
     wallet_publicKey := walletAddress u;
     wallet_balance := calculateBalance env chain (walletAddress u) |}.

(** [userWallet.createTransaction({ recipient, amount, chain })] inside
    [try]; the [catch] answers 400 with the error's message. *)
Definition tryCreateTransaction (w : Wallet) (recipient : string)
    (amount : number) : H object :=
  perform (CreateTransaction w recipient amount) ;;;
  match createTransaction env w recipient amount chain with
  | inr tx => ret tx
  | inl msg => reply 400 (message msg)
  end.

(** The export names recorded at deployment; a module that does not
    compile leaves the list empty. *)
Definition discoverExports (wasmBuffer : bytes) : list string :=
  match compile rt wasmBuffer with
  | Some m => function_export_names m
  | None => []
  end.

(** [app.post('/api/contract/deploy', authenticateToken, ...)] *)
Definition deploy (req : Request) : H Response :=
  match ephemeralKeys env !! userId (user req) with
  | None => reply 401 (message "Re-login required.")
  | Some eph =>
  let userWallet := userWalletOf eph (user req) in
  let rustCode := get (body req) "rustCode" in
  let gasLimit := get (body req) "gasLimit" in
  let description := get (body req) "description" in
  reject_if (negb (truthy rustCode)) 400 (message "No Rust code provided.") ;;;
  reject_if (negb (truthy gasLimit) || le_vn bi gasLimit (num 0))
    400 (message "Invalid gasLimit.") ;;;
  let needed := mul_vn bi gasLimit FIXED_GAS_PRICE in
  reject_if (lt (wallet_balance userWallet) needed)
    400 (message ("Need ≥" ++ ToString bi (Num needed) ++ " PKC.")) ;;;
  perform (CargoBuild rustCode) ;;;
  match cargoBuild env rustCode with
  | BuildFailed stderr => reply 400 (message stderr)
  | WasmMissing => reply 500 (message "WASM missing.")
  | Built wasmBuffer =>
  let codeSize := num (Z.of_nat (length wasmBuffer)) in
  reject_if (gt_nv bi codeSize gasLimit)
    400 (message ("Out of gas: " ++ ToString bi (Num codeSize) ++ " > "
                  ++ ToString bi gasLimit)) ;;;
  let exports := discoverExports wasmBuffer in
  let base64 := base64_encode rt wasmBuffer in
  tx <- tryCreateTransaction userWallet (walletAddress (user req)) (num 0) ;;
  let tx := <["type" := Str "SMART_CONTRACT"]> tx in
  let tx := <["isDeploy" := Boolean true]> tx in
  let tx := <["contractAddress" := Str (freshContractAddress env)]> tx in
  let tx := <["wasmBase64" := Str base64]> tx in
  let tx := <["rustSource" := encode env rustCode]> tx in
  let tx := <["exportedFunctions" := Arr (List.map Str exports)]> tx in
  let tx := <["gasLimit" := gasLimit]> tx in
  let tx := <["gasPrice" := Num FIXED_GAS_PRICE]> tx in
  let tx := <["contractDescription" :=
               if truthy description then description else Str ""]> tx in
  perform (SetTransaction tx) ;;;
  perform (BroadcastTransaction tx) ;;;
  reply 200 (Obj (<["message" := Str "Deploy TX created"]>
                 (<["contractAddress" := get tx "contractAddress"]>
                 (<["codeSize" := Num codeSize]>
                 (<["gasLimit" := gasLimit]>
                 {[ "transaction" := Obj tx ]})))))
  end
  end.

(** [functionArgs.map(v => Number(v) || 0)] for an array, [[]]
    otherwise. *)
Definition coerceArgs (functionArgs : value) : list value :=
  match functionArgs with
  | Arr l => List.map (fun v => Num (NumberOrZero bi v)) l
  | _ => []
  end.

(** [app.post('/api/contract/interact', authenticateToken, ...)] *)
Definition interact (req : Request) : H Response :=
  match ephemeralKeys env !! userId (user req) with
  | None => reply 401 (message "Re-login required.")
  | Some eph =>
  let contractAddress := get (body req) "contractAddress" in
  let functionName := get (body req) "functionName" in
  let functionArgs := get (body req) "functionArgs" in
  let gasLimit := get (body req) "gasLimit" in
  reject_if (negb (truthy contractAddress) || negb (truthy functionName))
    400 (message "contractAddress & functionName required.") ;;;
  let userWallet := userWalletOf eph (user req) in
  reject_if (negb (truthy gasLimit) || le_vn bi gasLimit (num 0))
    400 (message "gasLimit required.") ;;;
  let needed := mul_vn bi gasLimit FIXED_GAS_PRICE in
  reject_if (lt (wallet_balance userWallet) needed)
    400 (message ("Need ≥" ++ ToString bi (Num needed))) ;;;
  reject_if (lt_vn bi gasLimit (num 200))
    400 (message "Insufficient gas limit.") ;;;
  tx <- tryCreateTransaction userWallet (walletAddress (user req)) (num 0) ;;
  let tx := <["type" := Str "SMART_CONTRACT"]> tx in
  let tx := <["isDeploy" := Boolean false]> tx in
  let tx := <["contractAddress" := contractAddress]> tx in
  let tx := <["functionName" := functionName]> tx in
  let tx := <["functionArgs" := Arr (coerceArgs functionArgs)]> tx in
  let tx := <["gasLimit" := gasLimit]> tx in
  let tx := <["gasPrice" := Num FIXED_GAS_PRICE]> tx in
  perform (SetTransaction tx) ;;;
  perform (BroadcastTransaction tx) ;;;
  reply 200 (Obj (<["message" := Str "Interact TX created"]>
                 (<["cost" := Num (num 200)]>
                 (<["gasLimit" := gasLimit]>
                 {[ "transaction" := Obj tx ]}))))
  end.

End Routes.

End Server.

(* ================================================================== *)
(** * A reference platform for concrete runs                           *)
(* ================================================================== *)

Module Reference.
Import JS Wasm.

(** ** Conversions, exact on integers written in decimal

    [StringToNumber] reads the empty string as 0 and a string of decimal
    digits as its value; [NumberToString] prints an integer in decimal.
    Inputs of any other shape are outside what the concrete runs below
    use. *)
Definition stringToNumber (s : string) : number :=
  if String.eqb s "" then num 0
  else match DecimalString.NilEmpty.uint_of_string s with
       | Some u => num (Z.of_uint u)
       | None => NaN
       end.

Definition numberToString (n : number) : string :=
  match integer_value n with
  | Some z => DecimalString.NilZero.string_of_int (Z.to_int z)
  | None => "NaN"
  end.

Definition builtins : Builtins :=
  {| StringToNumber := stringToNumber; NumberToString := numberToString |}.

(** ** Base64 *)

Definition sextet (c : ascii) : option N :=
  let n := N_of_ascii c in
  if ((65 <=? n) && (n <=? 90))%N then Some (n - 65)%N
  else if ((97 <=? n) && (n <=? 122))%N then Some (n - 71)%N
  else if ((48 <=? n) && (n <=? 57))%N then Some (n + 4)%N
  else if ((n =? 43) || (n =? 45))%N then Some 62%N
  else if ((n =? 47) || (n =? 95))%N then Some 63%N
  else None.

(** The sextets up to the first padding character; characters outside
    the alphabet are skipped. *)
Fixpoint sextets (s : string) : list N :=
  match s with
  | EmptyString => []
  | String c rest =>
      if Ascii.eqb c "=" then []
      else match sextet c with
           | Some n => n :: sextets rest
           | None => sextets rest
           end
  end.

Definition octet (n : N) : byte :=
  default x00 (Byte.of_N (n mod 256)).

Fixpoint octets (l : list N) : bytes :=
  match l with
  | a :: b :: c :: d :: rest =>
      let n := (a * 262144 + b * 4096 + c * 64 + d)%N in
      octet (n / 65536) :: octet (n / 256) :: octet n :: octets rest
  | [a; b; c] =>
      let n := (a * 262144 + b * 4096 + c * 64)%N in
      [octet (n / 65536); octet (n / 256)]
  | [a; b] => [octet ((a * 262144 + b * 4096) / 65536)]
  | _ => []
  end.

Definition base64Decode (s : string) : bytes := octets (sextets s).

Definition digit64 (n : N) : ascii :=
  ascii_of_N (if (n <? 26)%N then n + 65
              else if (n <? 52)%N then n + 71
              else if (n <? 62)%N then n - 4
              else if (n =? 62)%N then 43 else 47).

Fixpoint base64Encode (b : bytes) : string :=
  match b with
  | x :: y :: z :: rest =>
      let n := (Byte.to_N x * 65536 + Byte.to_N y * 256 + Byte.to_N z)%N in
      String (digit64 (n / 262144)) (String (digit64 (n / 4096 mod 64))
        (String (digit64 (n / 64 mod 64)) (String (digit64 (n mod 64))
          (base64Encode rest))))
  | [x; y] =>
      let n := (Byte.to_N x * 65536 + Byte.to_N y * 256)%N in
      String (digit64 (n / 262144)) (String (digit64 (n / 4096 mod 64))
        (String (digit64 (n / 64 mod 64)) "="))
  | [x] =>
      let n := (Byte.to_N x * 65536)%N in
      String (digit64 (n / 262144)) (String (digit64 (n / 4096 mod 64)) "==")
  | [] => ""
  end.

(** ** Two modules

    The eight-byte module with no sections, and the module
    [(module (func (export "answer") (result i32) i32.const 42))]. *)
Definition emptyModuleBytes : bytes :=
  [x00; x61; x73; x6d; x01; x00; x00; x00].

Definition answerModuleBytes : bytes :=
  (emptyModuleBytes ++
   [x01; x05; x01; x60; x00; x01; x7f;
    x03; x02; x01; x00;
    x07; x0a; x01; x06; x61; x6e; x73; x77; x65; x72; x00; x00;
    x0a; x06; x01; x04; x00; x41; x2a; x0b])%list.

Definition emptyModule : Module_ :=
  {| mod_imports := [];
     mod_exports := [];
     mod_start := Return Undefined;
     mod_code := fun _ _ => Unreachable |}.

Definition answerModule : Module_ :=
  {| mod_imports := [];
     mod_exports := [ {| ex_name := "answer"; ex_kind := KFunction |} ];
     mod_start := Return Undefined;
     mod_code := fun name _ =>
       if String.eqb name "answer" then Return (Num (num 42)) else Unreachable |}.

(** ** A module that looks at the platform

    [[
    (module
      (import "constructor" "getPrototypeOf" (func $proto (param i32) (result externref)))
      (import "constructor" "isFrozen" (func $frozen (param externref) (result i32)))
      (import "constructor" "freeze" (func $freeze (param externref) (result externref)))
      (func (export "probe") (result i32) (local externref) (local i32)
        i32.const 0  call $proto   local.set 0
        local.get 0  call $frozen  local.set 1
        local.get 0  call $freeze  drop
        local.get 1))
    ]]
    Read on the empty object literal, [constructor] is [Object], so the
    three imports are [Object.getPrototypeOf], [Object.isFrozen] and
    [Object.freeze]: the function reports whether [Number.prototype] was
    frozen and freezes it. *)
Definition probeModuleBytes : bytes :=
  (emptyModuleBytes ++
   [x01; x14; x04; x60; x01; x7f; x01; x6f; x60; x01; x6f; x01; x7f;
    x60; x01; x6f; x01; x6f; x60; x00; x01; x7f;
    x02; x4a; x03;
    x0b; x63; x6f; x6e; x73; x74; x72; x75; x63; x74; x6f; x72;
    x0e; x67; x65; x74; x50; x72; x6f; x74; x6f; x74; x79; x70; x65; x4f; x66;
    x00; x00;
    x0b; x63; x6f; x6e; x73; x74; x72; x75; x63; x74; x6f; x72;
    x08; x69; x73; x46; x72; x6f; x7a; x65; x6e; x00; x01;
    x0b; x63; x6f; x6e; x73; x74; x72; x75; x63; x74; x6f; x72;
    x06; x66; x72; x65; x65; x7a; x65; x00; x02;
    x03; x02; x01; x03;
    x07; x09; x01; x05; x70; x72; x6f; x62; x65; x00; x03;
    x0a; x1b; x01; x19; x02; x01; x6f; x01; x7f;
    x41; x00; x10; x00; x21; x00; x20; x00; x10; x01; x21; x01;
    x20; x00; x10; x02; x1a; x20; x01; x0b])%list.

(** The number an [i32] result is, for the results met here. *)
Definition int32Of (h : hostval) : number :=
  match h with
  | Plain (Boolean true) => num 1
  | Plain (Num n) => n
  | _ => num 0
  end.

Definition probeModule : Module_ :=
  {| mod_imports :=
       [ {| im_module := "constructor"; im_name := "getPrototypeOf";
            im_kind := KFunction |};
         {| im_module := "constructor"; im_name := "isFrozen";
            im_kind := KFunction |};
         {| im_module := "constructor"; im_name := "freeze";
            im_kind := KFunction |} ];
     mod_exports := [ {| ex_name := "probe"; ex_kind := KFunction |} ];
     mod_start := Return Undefined;
     mod_code := fun name _ =>
       if String.eqb name "probe" then
         CallImport 0 [Plain (Num (num 0))] (fun proto =>
         CallImport 1 [proto] (fun frozen =>
         CallImport 2 [proto] (fun _ =>
         Return (Num (int32Of frozen)))))
       else Unreachable |}.

(** ** The platform's objects, and three functions of [Object]

    [Number.prototype] and [Object.prototype], neither frozen when the
    process starts.  The three functions are given on numbers and on
    these two objects. *)
Definition numberPrototype : positive := 1.
Definition objectPrototype : positive := 2.

Definition startWorld : World :=
  {[ numberPrototype := {| ho_frozen := false; ho_properties := ∅ |};
     objectPrototype := {| ho_frozen := false; ho_properties := ∅ |} ]}.

Definition getPrototypeOf : HostFn := fun args w =>
  match args with
  | Plain (Num _) :: _ => (Some (Ref numberPrototype), w)
  | Ref r :: _ =>
      if Pos.eqb r numberPrototype then (Some (Ref objectPrototype), w)
      else (Some (Plain Null), w)
  | _ => (None, w)
  end.

Definition isFrozen : HostFn := fun args w =>
  match args with
  | Ref r :: _ =>
      (Some (Plain (Boolean (default false (ho_frozen <$> w !! r)))), w)
  | _ => (Some (Plain (Boolean true)), w)
  end.

Definition freeze : HostFn := fun args w =>
  match args with
  | Ref r :: _ =>
      (Some (Ref r),
       <[r := {| ho_frozen := true;
                 ho_properties := default ∅ (ho_properties <$> w !! r) |}]> w)
  | v :: _ => (Some v, w)
  | [] => (Some (Plain Undefined), w)
  end.

(** What the three names resolve to on an object literal; other paths are
    left unresolved. *)
Definition inheritedKnown (path : list string) (k : extern_kind)
  : option HostFn :=
  match k, path with
  | KFunction, [m; f] =>
      if String.eqb m "constructor" then
        if String.eqb f "getPrototypeOf" then Some getPrototypeOf
        else if String.eqb f "isFrozen" then Some isFrozen
        else if String.eqb f "freeze" then Some freeze
        else None
      else None
  | _, _ => None
  end.

Definition bytes_eqb (a b : bytes) : bool :=
  bool_decide (List.map Byte.to_N a = List.map Byte.to_N b).

(** A compiler that knows these three modules and rejects everything
    else. *)
Definition compileKnown (b : bytes) : option Module_ :=
  if bytes_eqb b emptyModuleBytes then Some emptyModule
  else if bytes_eqb b answerModuleBytes then Some answerModule
  else if bytes_eqb b probeModuleBytes then Some probeModule
  else None.

Definition runtime : Runtime :=
  {| base64_decode := base64Decode;
     base64_encode := base64Encode;
     compile := compileKnown;
     inherited := inheritedKnown |}.

Definition emptyModuleBase64 : string := "AGFzbQEAAAA=".

Definition answerModuleBase64 : string :=
  "AGFzbQEAAAABBQFgAAF/AwIBAAcKAQZhbnN3ZXIAAAoGAQQAQSoL".

Definition probeModuleBase64 : string :=
  "AGFzbQEAAAABFARgAX8Bb2ABbwF/YAFvAW9gAAF/AkoDC2NvbnN0cnVjdG9yDmdldFByb3RvdHlwZU9mAAALY29uc3RydWN0b3IIaXNGcm96ZW4AAQtjb25zdHJ1Y3RvcgZmcmVlemUAAgMCAQMHCQEFcHJvYmUAAwobARkCAW8Bf0EAEAAhACAAEAEhASAAEAIaIAEL".

(** ** A stored contract and a heap holding its state *)

Definition counterState : object :=
  {[ "owner" := Str "alice" ]}.

Definition sampleHeap : Engine.heap := {[ 1%positive := counterState ]}.

Definition sampleStore : Engine.store :=
  {| Engine.st_heap := sampleHeap; Engine.st_log := [];
     Engine.st_world := startWorld |}.

Definition answerDoc : Engine.ContractDoc :=
  {| Engine.codeWasmBase64 := answerModuleBase64;
     Engine.state := Some 1%positive |}.

Definition emptyDoc : Engine.ContractDoc :=
  {| Engine.codeWasmBase64 := emptyModuleBase64;
     Engine.state := Some 1%positive |}.

Definition probeDoc : Engine.ContractDoc :=
  {| Engine.codeWasmBase64 := probeModuleBase64;
     Engine.state := Some 1%positive |}.

(** ** A node with one logged-in user

    The user holds the starting balance; the wallet refuses an amount above
    the balance and otherwise returns a transaction object; the build
    yields the [answer] module. *)
Definition sampleTransaction : object :=
  {[ "id" := Str "6b1f2c40-0001" ]}.

Definition sampleEnv : Server.Env :=
  {| Server.ephemeralKeys :=
       {[ "user-1" := {| Server.privateKey := "c0ffee"; Server.publicKey := "04ab" |} ]};
     Server.calculateBalance := fun _ _ => Config.STARTING_BALANCE;
     Server.createTransaction := fun w _ amount _ =>
       if gt amount (Server.wallet_balance w)
       then inl "Amount exceeds balance"
       else inr sampleTransaction;
     Server.cargoBuild := fun _ => Server.Built answerModuleBytes;
     Server.freshContractAddress := "9f86d081884c7d6518f3a2b4c5d";
     Server.encode := fun v => v |}.

Definition sampleUser : Server.User :=
  {| Server.userId := "user-1"; Server.walletAddress := "04ab" |}.

(** A request body with every field either route reads. *)
Definition sampleRequest (functionArgs gasLimit : value) : Server.Request :=
  {| Server.user := sampleUser;
     Server.body :=
       {[ "rustCode" := Str "#[no_mangle] pub extern fn answer() -> i32 { 42 }";
          "contractAddress" := Str "9f86d081884c7d6518f3a2b4c5d";
          "functionName" := Str "answer";
          "functionArgs" := functionArgs;
          "gasLimit" := gasLimit ]} |}.

(** The transactions the routes build from [sampleTransaction]. *)
Definition deployTransaction (gasLimit : value) : object :=
  <["contractDescription" := Str ""]>
  (<["gasPrice" := Num Config.FIXED_GAS_PRICE]>
  (<["gasLimit" := gasLimit]>
  (<["exportedFunctions" := Arr [Str "answer"]]>
  (<["rustSource" := Str "#[no_mangle] pub extern fn answer() -> i32 { 42 }"]>
  (<["wasmBase64" := Str answerModuleBase64]>
  (<["contractAddress" := Str "9f86d081884c7d6518f3a2b4c5d"]>
  (<["isDeploy" := Boolean true]>
  (<["type" := Str "SMART_CONTRACT"]> sampleTransaction)))))))).

Definition interactTransaction (functionArgs : list value) (gasLimit : value)
  : object :=
  <["gasPrice" := Num Config.FIXED_GAS_PRICE]>
  (<["gasLimit" := gasLimit]>
  (<["functionArgs" := Arr functionArgs]>
  (<["functionName" := Str "answer"]>
  (<["contractAddress" := Str "9f86d081884c7d6518f3a2b4c5d"]>
  (<["isDeploy" := Boolean false]>
  (<["type" := Str "SMART_CONTRACT"]> sampleTransaction)))))).

(** ** A second node, holding the same contract state elsewhere *)



End Reference.

(* ================================================================== *)
(** * index.js: notifications                                          *)
(* ================================================================== *)

Module Notify.
Import JS.

Record Notification := {
  id : string;
  message : string;
  link : string;
  isRead : bool
}.

(** [notificationsMap]: user id to the user's notifications, oldest
    first.  User ids are database ids, never the name of a property that
    every object inherits. *)
Abbreviation NotificationsMap := (gmap string (list Notification)).

(** What the block hooks do besides notifying. *)
Inductive effect :=
  | AddBlock (args : value)
  | BroadcastChain.

(** The notifications, how many random ids have been drawn, and the calls
    made to the chain and to the peer server. *)
Record state := {
  notes : NotificationsMap;
  drawn : nat;
  log : list effect
}.

Inductive exn := TypeError.

Definition N (A : Type) : Type := state -> (exn + A) * state.

Definition ret {A} (a : A) : N A := fun st => (inr a, st).

Definition bind {A B} (m : N A) (k : A -> N B) : N B :=
  fun st =>
    match m st with
    | (inr a, st') => k a st'
    | (inl e, st') => (inl e, st')
    end.

Definition throw {A} (e : exn) : N A := fun st => (inl e, st).

Definition modify (f : state -> state) : N unit := fun st => (inr tt, f st).

Definition emit (e : effect) : N unit :=
  modify (fun st => {| notes := notes st; drawn := drawn st;
                       log := (log st ++ [e])%list |}).

#[local] Notation "x <- m ;; k" := (bind m (fun x => k))
  (at level 100, m at next level, right associativity).
#[local] Notation "m ;;; k" := (bind m (fun _ => k))
  (at level 100, right associativity).

(** [v.k] for a property name no primitive carries: reading a property of
    [undefined] or [null] throws, other primitives and arrays give
    [undefined]. *)
Definition prop (v : value) (k : string) : N value :=
  match v with
  | Undefined | Null => throw TypeError
  | Obj o => ret (get o k)
  | _ => ret Undefined
  end.

(** [s === v] for a string [s]. *)
Definition strict_eq_str (s : string) (v : value) : bool :=
  match v with
  | Str t => String.eqb s t
  | _ => false
  end.

(** [for (const [uId, obj] of Object.entries(ephemeralKeys || {}))
      if (obj.publicKey === pubKey) return uId;  return null;]
    over the entries in the order [Object.entries] lists them. *)
Fixpoint findUserIdByAddress (entries : list (string * Server.EphemeralKey))
    (pubKey : value) : option string :=
  match entries with
  | [] => None
  | (uId, obj) :: rest =>
      if strict_eq_str (Server.publicKey obj) pubKey then Some uId
      else findUserIdByAddress rest pubKey
  end.

Section Hooks.
Variable bi : Builtins.
(** The hexadecimal string of the [k]-th draw of eight random bytes. *)
Variable randomId : nat -> string.
Variable entries : list (string * Server.EphemeralKey).
(** [blockchain.addBlock] before it is overridden; it returns the block. *)
Variable originalAdd : value -> object.

Definition addNotification (userId message link : string) : N unit :=
  modify (fun st =>
    let existing :=
      match notes st !! userId with
      | None => []
      | Some l => l
      end in
    {| notes := <[userId := (existing ++
                   [ {| id := randomId (drawn st);
                        message := message;
                        link := link;
                        isRead := false |} ])%list]> (notes st);
       drawn := S (drawn st);
       log := log st |}).

(** [v.slice(0, 10)] inside a template string: the first ten characters
    of a string, the first ten elements of an array joined by commas;
    nothing else has a [slice] to call. *)
Definition slice10 (v : value) : N string :=
  match v with
  | Str s => ret (String.substring 0 10 s)
  | Arr l => ret (ToString bi (Arr (take 10 l)))
  | _ => throw TypeError
  end.

(** The body of the [forEach] of both block hooks. *)
Definition notifyMined (tx : value) : N unit :=
  ty <- prop tx "type" ;;
  if strict_eq_str "REWARD" ty then ret tt
  else
    input <- prop tx "input" ;;
    address <- prop input "address" ;;
    match findUserIdByAddress entries address with
    | None => ret tt
    | Some uid =>
        if String.eqb uid "" then ret tt
        else
          txid <- prop tx "id" ;;
          short <- slice10 txid ;;
          addNotification uid ("Your tx " ++ short ++ "… was mined!")
                          ("/transaction/" ++ ToString bi txid)
    end.

Fixpoint forEachList (f : value -> N unit) (l : list value) : N unit :=
  match l with
  | [] => ret tt
  | x :: rest => f x ;;; forEachList f rest
  end.

(** [v.forEach(f)]: only an array has it. *)
Definition forEach (v : value) (f : value -> N unit) : N unit :=
  match v with
  | Arr l => forEachList f l
  | _ => throw TypeError
  end.

(** [function addMinedNotifications(block)] *)
Definition addMinedNotifications (block : object) : N unit :=
  forEach (get block "data") notifyMined.

(** [blockchain.addBlock = args => { ... }], the override. *)
Definition addBlock (args : value) : N object :=
  emit (AddBlock args) ;;;
  let blk := originalAdd args in
  forEach (get blk "data") notifyMined ;;;
  emit BroadcastChain ;;;
  ret blk.

(** [app.post('/api/mine', ...)]; it answers with a redirect to
    [/api/blocks]. *)
Definition mine (body : object) : N string :=
  addBlock (Obj {[ "data" := get body "data" ]}) ;;;
  emit BroadcastChain ;;;
  ret "/api/blocks".

End Hooks.

(** [app.get('/api/user/notifications', ...)] *)
Definition getNotifications (userId : string) (m : NotificationsMap)
  : list Notification :=
  match m !! userId with
  | None => []
  | Some l => l
  end.

Definition setRead (n : Notification) : Notification :=
  {| id := id n; message := message n; link := link n; isRead := true |}.

(** [const n = arr.find(x => x.id === wanted); if (n) n.isRead = true;] *)
Fixpoint markFirst (wanted : value) (arr : list Notification)
  : list Notification :=
  match arr with
  | [] => []
  | x :: rest =>
      if strict_eq_str (id x) wanted then setRead x :: rest
      else x :: markFirst wanted rest
  end.

(** [app.post('/api/user/notifications/mark-read', ...)]: the array read
    from the map is modified in place; for a user without an entry the
    array is a new empty one and the map is not written. *)
Definition markRead (userId : string) (wanted : value) (m : NotificationsMap)
  : NotificationsMap :=
  match m !! userId with
  | None => m
  | Some arr =>
      if strict_eq_str "all" wanted
      then <[userId := List.map setRead arr]> m
      else <[userId := markFirst wanted arr]> m
  end.

(** From [st] to [st'] notifications were only added: every user's list
    in [st] is the beginning of the user's list in [st']. *)
Definition appends (st st' : state) : Prop :=
  drawn st <= drawn st' /\
  forall u, getNotifications u (notes st) `prefix_of` getNotifications u (notes st').

(** What mark-read must not touch. *)
Definition content (n : Notification) : string * string * string :=
  (id n, message n, link n).

End Notify.

(* ================================================================== *)
(** * index.js: the wallet routes                                      *)
(* ================================================================== *)

Module Transfers.
Import JS.

(** The wallet module and the miner, as these routes use them; here the
    recipient is whatever the request body holds. *)
Record Env := {
  ephemeralKeys : gmap string Server.EphemeralKey;
  calculateBalance : Server.Chain -> string -> number;
  createTransaction :
    Server.Wallet -> value -> number -> Server.Chain -> string + object
}.

Inductive effect :=
  | CreateTransaction (w : Server.Wallet) (recipient : value) (amount : number)
  | SetTransaction (tx : object)
  | BroadcastTransaction (tx : object)
  | MineTransactions (privateKey walletAddress userId : string).

Definition H (A : Type) : Type := list effect * (Server.Response + A).

Definition ret {A} (a : A) : H A := ([], inr a).

Definition bind {A B} (m : H A) (k : A -> H B) : H B :=
  match m with
  | (es, inl r) => (es, inl r)
  | (es, inr a) => let '(es', x) := k a in ((es ++ es')%list, x)
  end.

Definition perform (e : effect) : H unit := ([e], inr tt).

Definition reply {A} (st : nat) (v : value) : H A :=
  ([], inl {| Server.status := st; Server.json := v |}).

#[local] Notation "x <- m ;; k" := (bind m (fun x => k))
  (at level 100, m at next level, right associativity).
#[local] Notation "m ;;; k" := (bind m (fun _ => k))
  (at level 100, right associativity).

Definition run (h : H Server.Response) : list effect * Server.Response :=
  match h with
  | (es, inl r) | (es, inr r) => (es, r)
  end.

Section Routes.
Variable bi : Builtins.
Variable env : Env.
Variable chain : Server.Chain.

Definition userWalletOf (eph : Server.EphemeralKey) (u : Server.User)
  : Server.Wallet :=
  {| Server.wallet_keyPair := Server.privateKey eph;
     Server.wallet_publicKey := Server.walletAddress u;
     Server.wallet_balance :=
       calculateBalance env chain (Server.walletAddress u) |}.

(** [app.get('/api/user/mine-transactions', authenticateToken, ...)] *)
Definition mineTransactions (req : Server.Request) : H Server.Response :=
  let u := Server.user req in
  match ephemeralKeys env !! Server.userId u with
  | None => reply 401 (Server.message "Re-login required.")
  | Some eph =>
      perform (MineTransactions (Server.privateKey eph)
                 (Server.walletAddress u) (Server.userId u)) ;;;
      reply 200 (Server.message "Mining complete. New block added.")
  end.

(** [app.get('/api/user/wallet-info', authenticateToken, ...)] *)
Definition walletInfo (req : Server.Request) : H Server.Response :=
  let u := Server.user req in
  match ephemeralKeys env !! Server.userId u with
  | None => reply 401 (Server.message "Re-login required.")
  | Some eph =>
      let balance := calculateBalance env chain (Server.walletAddress u) in
      reply 200 (Obj (<["address" := Str (Server.walletAddress u)]>
                     {[ "balance" := Num balance ]}))
  end.

(** [app.post('/api/user/transact', authenticateToken, ...)] *)
Definition transact (req : Server.Request) : H Server.Response :=
  let u := Server.user req in
  match ephemeralKeys env !! Server.userId u with
  | None => reply 401 (Server.message "Re-login required.")
  | Some eph =>
      let recipient := get (Server.body req) "recipient" in
      let amount := get (Server.body req) "amount" in
      let userWallet := userWalletOf eph u in
      perform (CreateTransaction userWallet recipient (ToNumber bi amount)) ;;;
      match createTransaction env userWallet recipient (ToNumber bi amount) chain with
      | inl msg => reply 400 (Server.message msg)
      | inr tx =>
          let tx := <["type" := Str "NORMAL"]> tx in
          perform (SetTransaction tx) ;;;
          perform (BroadcastTransaction tx) ;;;
          reply 200 (Obj (<["message" := Str "Transaction submitted"]>
                         {[ "transaction" := Obj tx ]}))
      end
  end.

End Routes.

End Transfers.

(* ================================================================== *)
(** * index.js: starting the server                                    *)
(* ================================================================== *)

Module Startup.
Import JS.

Inductive effect :=
  | Listen (port : value)
  | SyncChains
  | SyncPool
  | P2pListen.

(** [v !== 3000]. *)
Definition not_3000 (v : value) : bool :=
  match v with
  | Num n => negb (SFeqb n (num 3000))
  | _ => true
  end.

(** [const PORT = process.env.PORT || 3000]; an environment variable
    that is set is a string. *)
Definition PORT (envPort : option string) : value :=
  match envPort with
  | Some s => if truthy (Str s) then Str s else Num (num 3000)
  | None => Num (num 3000)
  end.

(** [app.listen(PORT, () => { ... })] and its callback. *)
Definition start (envPort : option string) : list effect :=
  let port := PORT envPort in
  (Listen port ::
   (if not_3000 port then [SyncChains; SyncPool] else []) ++ [P2pListen])%list.

End Startup.

(* ================================================================== *)
(** * config.js: hash-rate thresholds                                  *)
(* ================================================================== *)

Module Tiers.
Import JS.

Record Thresholds := {
  EASY_NORM : number;
  NORM_MED : number;
  MED_HIGH : number;
  HIGH_ULTRA : number;
  ULTRA_EXTR : number
}.

(** [s.split(',')] *)
Fixpoint split_commas (s : string) : list string :=
  match s with
  | EmptyString => [""]
  | String c rest =>
      if Ascii.eqb c "," then "" :: split_commas rest
      else match split_commas rest with
           | h :: t => String c h :: t
           | [] => [String c ""]
           end
  end.

Definition defaults : Thresholds :=
  {| EASY_NORM := num 50000;
     NORM_MED := num 200000;
     MED_HIGH := num 750000;
     HIGH_ULTRA := num 2500000;
     ULTRA_EXTR := num 12000000 |}.

Section Thresholds.
(** [String.prototype.trim] and [parseInt(_, 10)]. *)
Variable trim : string -> string.
Variable parseInt10 : string -> number.

(** The entries of [POWER_THRESHOLDS] that parse to a positive number. *)
Definition parsed (env : string) : list number :=
  List.filter (fun n => gt n (num 0))
    (List.map (fun n => parseInt10 (trim n)) (split_commas env)).

(** [HASHRATE_THRESHOLDS], for the value of the environment variable
    [POWER_THRESHOLDS], if set. *)
Definition HASHRATE_THRESHOLDS (env : option string) : Thresholds :=
  match env with
  | Some s =>
      if truthy (Str s) then
        match parsed s with
        | [a; b; c; d; e] =>
            {| EASY_NORM := a; NORM_MED := b; MED_HIGH := c;
               HIGH_ULTRA := d; ULTRA_EXTR := e |}
        | _ => defaults
        end
      else defaults
  | None => defaults
  end.

End Thresholds.

End Tiers.

(* ================================================================== *)
(** * What a request publishes                                         *)
(* ================================================================== *)

Module Published.

Definition is_publication (e : Server.effect) : bool :=
  match e with
  | Server.SetTransaction _ | Server.BroadcastTransaction _ => true
  | _ => false
  end.

(** The transactions a contract route pools and broadcasts, in order. *)
Definition publications (es : list Server.effect) : list Server.effect :=
  List.filter is_publication es.

Definition is_transfer_publication (e : Transfers.effect) : bool :=
  match e with
  | Transfers.SetTransaction _ | Transfers.BroadcastTransaction _ => true
  | _ => false
  end.

Definition transfer_publications (es : list Transfers.effect)
  : list Transfers.effect :=
  List.filter is_transfer_publication es.

End Published.

(* ================================================================== *)
(** * More concrete material                                           *)
(* ================================================================== *)

Module Samples.
Import JS Wasm.

(** ** Two more modules

    [(module (import "env" "now" (func)))] and
    [(module (func (export "boom") unreachable))]. *)
Definition importingModuleBytes : bytes :=
  (Reference.emptyModuleBytes ++
   [x01; x04; x01; x60; x00; x00;
    x02; x0b; x01; x03; x65; x6e; x76; x03; x6e; x6f; x77; x00; x00])%list.

Definition trappingModuleBytes : bytes :=
  (Reference.emptyModuleBytes ++
   [x01; x04; x01; x60; x00; x00;
    x03; x02; x01; x00;
    x07; x08; x01; x04; x62; x6f; x6f; x6d; x00; x00;
    x0a; x05; x01; x03; x00; x00; x0b])%list.

Definition importingModule : Module_ :=
  {| mod_imports := [ {| im_module := "env"; im_name := "now";
                         im_kind := KFunction |} ];
     mod_exports := [];
     mod_start := Return Undefined;
     mod_code := fun _ _ => Unreachable |}.

Definition trappingModule : Module_ :=
  {| mod_imports := [];
     mod_exports := [ {| ex_name := "boom"; ex_kind := KFunction |} ];
     mod_start := Return Undefined;
     mod_code := fun _ _ => Unreachable |}.

Definition compileKnown (b : bytes) : option Module_ :=
  if Reference.bytes_eqb b importingModuleBytes then Some importingModule
  else if Reference.bytes_eqb b trappingModuleBytes then Some trappingModule
  else Reference.compileKnown b.

Definition runtime : Runtime :=
  {| base64_decode := Reference.base64Decode;
     base64_encode := Reference.base64Encode;
     compile := compileKnown;
     inherited := Reference.inheritedKnown |}.


Definition trappingDoc : Engine.ContractDoc :=
  {| Engine.codeWasmBase64 := "AGFzbQEAAAABBAFgAAADAgEABwgBBGJvb20AAAoFAQMAAAs=";
     Engine.state := Some 1%positive |}.

(** The instance of the [answer] module and of the [boom] module. *)
Definition answerInstance : Instance :=
  {| inst_exports :=
       list_to_map [("answer",
                     Callable (fun args =>
                       run_prog [] (mod_code Reference.answerModule "answer" args)))] |}.

Definition trappingInstance : Instance :=
  {| inst_exports :=
       list_to_map [("boom", Callable (fun args =>
                       run_prog [] (mod_code trappingModule "boom" args)))] |}.

(** ** A node whose build fails, and one whose key store is empty *)

Definition failingBuildEnv : Server.Env :=
  {| Server.ephemeralKeys := Server.ephemeralKeys Reference.sampleEnv;
     Server.calculateBalance := Server.calculateBalance Reference.sampleEnv;
     Server.createTransaction := Server.createTransaction Reference.sampleEnv;
     Server.cargoBuild := fun _ => Server.BuildFailed "error[E0425]: cannot find value";
     Server.freshContractAddress := Server.freshContractAddress Reference.sampleEnv;
     Server.encode := Server.encode Reference.sampleEnv |}.

Definition loggedOutEnv : Server.Env :=
  {| Server.ephemeralKeys := ∅;
     Server.calculateBalance := Server.calculateBalance Reference.sampleEnv;
     Server.createTransaction := Server.createTransaction Reference.sampleEnv;
     Server.cargoBuild := Server.cargoBuild Reference.sampleEnv;
     Server.freshContractAddress := Server.freshContractAddress Reference.sampleEnv;
     Server.encode := Server.encode Reference.sampleEnv |}.

Definition walletEnv : Transfers.Env :=
  {| Transfers.ephemeralKeys := Server.ephemeralKeys Reference.sampleEnv;
     Transfers.calculateBalance := fun _ _ => Config.STARTING_BALANCE;
     Transfers.createTransaction := fun w _ amount _ =>
       if gt amount (Server.wallet_balance w)
       then inl "Amount exceeds balance"
       else inr Reference.sampleTransaction |}.

Definition loggedOutWalletEnv : Transfers.Env :=
  {| Transfers.ephemeralKeys := ∅;
     Transfers.calculateBalance := Transfers.calculateBalance walletEnv;
     Transfers.createTransaction := Transfers.createTransaction walletEnv |}.

Definition transferRequest (amount : value) : Server.Request :=
  {| Server.user := Reference.sampleUser;
     Server.body := {[ "recipient" := Str "04cd"; "amount" := amount ]} |}.

(** ** Notifications *)

Definition randomId (k : nat) : string :=
  match k with
  | 0 => "1f0e3dad99908345"
  | 1 => "f3a1c2b4d5e6f708"
  | _ => "00112233445566aa"
  end.

Definition entries : list (string * Server.EphemeralKey) :=
  [("user-1", {| Server.privateKey := "c0ffee"; Server.publicKey := "04ab" |});
   ("user-2", {| Server.privateKey := "decade"; Server.publicKey := "04cd" |})].

Definition note (i m : string) (r : bool) : Notify.Notification :=
  {| Notify.id := i; Notify.message := m; Notify.link := "/transaction/x";
     Notify.isRead := r |}.

Definition sampleNotes : Notify.NotificationsMap :=
  {[ "user-1" := [note "a1" "first" false; note "b2" "second" false;
                  note "a1" "third" false];
     "user-2" := [note "c3" "other" false] ]}.

Definition sampleState : Notify.state :=
  {| Notify.notes := sampleNotes; Notify.drawn := 0; Notify.log := [] |}.

Definition transferTx (ty sender txid : string) : value :=
  Obj {[ "type" := Str ty;
         "id" := Str txid;
         "input" := Obj {[ "address" := Str sender ]} ]}.

(** The chain's [addBlock] returns a block holding the data it was
    given. *)
Definition originalAdd (args : value) : object :=
  match args with
  | Obj o => {[ "data" := get o "data" ]}
  | _ => ∅
  end.

End Samples.


(* ================================================================== *)
(** * Properties                                                       *)
(* ================================================================== *)

Import JS Wasm Engine.

Arguments num : simpl never.
Arguments add : simpl never.
Arguments mul : simpl never.
Arguments lt : simpl never.
Arguments gt : simpl never.
Arguments le : simpl never.

(** ** Numbers *)

Lemma num_nat_not_neg_zero (n : nat) : num (Z.of_nat n) <> S754_zero true.
Proof.
  destruct (Z.of_nat n) as [|p|p] eqn:E; [discriminate | | lia].
  unfold num, binary_normalize, binary_round, binary_round_aux.
  destruct (shl_align _ _ _) as [mz ez].
  destruct (shr_fexp _ _ _ _ _) as [mrs e'].
  destruct (shr_fexp _ _ _ _ _) as [mrs2 e2].
  destruct (shr_m mrs2); [discriminate | | discriminate].
  destruct (_ <=? _)%Z; discriminate.
Qed.

(** Rounding a non-negative mantissa never produces NaN. *)
Lemma shr_1_nonneg mrs : (0 <= shr_m mrs)%Z -> (0 <= shr_m (shr_1 mrs))%Z.
Proof. destruct mrs as [[|[p|p|]|[p|p|]] r t]; simpl; lia. Qed.

Lemma iter_shr_1_nonneg p : forall mrs,
  (0 <= shr_m mrs)%Z -> (0 <= shr_m (SpecFloat.iter_pos shr_1 p mrs))%Z.
Proof.
  induction p as [p IH|p IH|]; intros mrs H; simpl.
  - apply IH, IH, shr_1_nonneg, H.
  - apply IH, IH, H.
  - apply shr_1_nonneg, H.
Qed.

Lemma shr_fexp_nonneg m e l :
  (0 <= m)%Z -> (0 <= shr_m (shr_fexp prec emax m e l).1)%Z.
Proof.
  intros H. unfold shr_fexp, shr.
  assert (Hm : shr_m (shr_record_of_loc m l) = m) by (by destruct l as [|[| |]]).
  destruct (_ - e)%Z; simpl; rewrite ?Hm; try done.
  apply iter_shr_1_nonneg. by rewrite Hm.
Qed.

Lemma round_nearest_even_nonneg m l :
  (0 <= m)%Z -> (0 <= round_nearest_even m l)%Z.
Proof.
  intros H. destruct l as [|[| |]]; simpl; try done; [|lia].
  destruct (Z.even m); lia.
Qed.

Lemma binary_round_aux_not_nan sx m e l :
  (0 <= m)%Z -> is_nan (binary_round_aux prec emax sx m e l) = false.
Proof.
  intros H. unfold binary_round_aux.
  pose proof (shr_fexp_nonneg m e l H) as H1.
  destruct (shr_fexp prec emax m e l) as [mrs e'].
  pose proof (shr_fexp_nonneg _ e' loc_Exact
                (round_nearest_even_nonneg _ (loc_of_shr_record mrs) H1)) as H2.
  destruct (shr_fexp prec emax _ e' loc_Exact) as [mrs2 e2]. simpl in H2.
  destruct (shr_m mrs2); [done| |lia].
  by destruct (_ <=? _)%Z.
Qed.

Lemma num_not_nan (z : Z) : is_nan (num z) = false.
Proof.
  unfold num, binary_normalize, binary_round.
  destruct z as [|p|p]; [done| |];
    destruct (shl_align _ _ _) as [mz ez]; by apply binary_round_aux_not_nan.
Qed.

Lemma add_zero_l (y : number) : y <> S754_zero true -> add (num 0) y = y.
Proof. destruct y as [[|]| | |]; cbv; intros H; congruence. Qed.

Lemma add_zero_length (b : bytes) :
  add (num 0) (num (Z.of_nat (length b))) = num (Z.of_nat (length b)).
Proof. apply add_zero_l, num_nat_not_neg_zero. Qed.

Lemma add_zero_200 : add (num 0) (num 200) = num 200.
Proof. reflexivity. Qed.

(** Where neither operand is NaN, "not greater" is "less or equal". *)
Lemma not_gt_le (a b : number) :
  is_nan a = false -> is_nan b = false -> gt a b = false -> le a b = true.
Proof.
  unfold gt, le, SFltb. intros Ha Hb.
  destruct (SFcompare b a) as [[| |]|] eqn:E; try done.
  destruct a, b; simpl in *; congruence.
Qed.

(** ** The helper, step by step *)

Ltac unfold_helper :=
  unfold runWasmContract, call, wasm_compile, wasm_instantiate, set_property,
    spread, prepared;
  unfold bind, emit, throw, ret, with_world.

Section EngineFacts.
Variable bi : Builtins.
Variable rt : Runtime.

Lemma deref_fresh (h : heap) (o : object) :
  deref (<[fresh (dom h) := o]> h) (Some (fresh (dom h))) = o.
Proof. unfold deref. simpl. by rewrite lookup_insert_eq. Qed.

Lemma preserved_alloc (h : heap) (o : object) :
  preserved h (<[fresh (dom h) := o]> h).
Proof.
  intros l Hl. apply lookup_insert_ne. intros <-.
  by apply (is_fresh (dom h)).
Qed.

Lemma preserved_alloc_write (h : heap) (o o' : object) :
  preserved h (<[fresh (dom h) := o']> (<[fresh (dom h) := o]> h)).
Proof. rewrite insert_insert_eq. apply preserved_alloc. Qed.

(** A run that fails before a function is chosen. *)
Lemma run_compile_error doc fn args gl s :
  compile rt (base64_decode rt (codeWasmBase64 doc)) = None ->
  runWasmContract bi rt doc fn args gl s =
    (inl CompileError,
     {| st_heap := st_heap (prepared rt doc s);
        st_log := st_log s ++ [EvCompile (base64_decode rt (codeWasmBase64 doc))];
        st_world := st_world s |}).
Proof.
  intros Hc. unfold_helper.
  simpl. by rewrite Hc.
Qed.

Lemma run_instantiate_error doc fn args gl s m e :
  compile rt (base64_decode rt (codeWasmBase64 doc)) = Some m ->
  (instantiate rt m ∅ (st_world s)).1 = inl e ->
  runWasmContract bi rt doc fn args gl s =
    (inl (InstantiateError e), prepared rt doc s).
Proof.
  intros Hc Hi.
  unfold_helper.
  simpl. rewrite Hc. simpl.
  destruct (instantiate rt m ∅ (st_world s)) as [r w]. simpl in Hi. subst r.
  simpl. by rewrite <- app_assoc.
Qed.

(** The branch for a name that is not a function export (or no name). *)
Lemma run_no_function doc fn args gl s m inst :
  compile rt (base64_decode rt (codeWasmBase64 doc)) = Some m ->
  (instantiate rt m ∅ (st_world s)).1 = inr inst ->
  truthy fn && typeof_function (inst_exports inst !! ToString bi fn) = false ->
  runWasmContract bi rt doc fn args gl s =
    let codeSize := num (Z.of_nat (length (base64_decode rt (codeWasmBase64 doc)))) in
    if gt_nv bi codeSize gl
    then (inl (Error "Out of gas (code size cost too high)"), prepared rt doc s)
    else (inr {| newState := fresh (dom (st_heap s));
                 usedGas := codeSize;
                 result := Null |}, prepared rt doc s).
Proof.
  intros Hc Hi Hf.
  unfold_helper.
  simpl. rewrite Hc. simpl.
  destruct (instantiate rt m ∅ (st_world s)) as [r w]. simpl in Hi. subst r.
  simpl. rewrite Hf.
  rewrite add_zero_length, <- app_assoc. simpl.
  by destruct (gt_nv _ _ _).
Qed.

(** The branch for a function export. *)
Lemma run_function doc fn args gl s m inst f :
  compile rt (base64_decode rt (codeWasmBase64 doc)) = Some m ->
  (instantiate rt m ∅ (st_world s)).1 = inr inst ->
  truthy fn = true ->
  inst_exports inst !! ToString bi fn = Some (Callable f) ->
  runWasmContract bi rt doc fn args gl s =
    if gt_nv bi (num 200) gl
    then (inl (Error "Out of gas before function call"), prepared rt doc s)
    else
      let done := f args (st_world (prepared rt doc s)) in
      let s' := {| st_heap := st_heap (prepared rt doc s);
                   st_log := st_log (prepared rt doc s)
                             ++ [EvCall (ToString bi fn) args];
                   st_world := done.2 |} in
      match done.1 with
      | Trapped => (inl RuntimeError, s')
      | Returned v =>
          (inr {| newState := fresh (dom (st_heap s));
                  usedGas := num 200;
                  result := v |},
           {| st_heap := <[fresh (dom (st_heap s)) :=
                             <["lastCallResult" := v]> (deref (st_heap s) (state doc))]>
                           (st_heap (prepared rt doc s));
              st_log := st_log s';
              st_world := done.2 |})
      end.
Proof.
  intros Hc Hi Ht Hf.
  unfold_helper.
  simpl. rewrite Hc. simpl.
  destruct (instantiate rt m ∅ (st_world s)) as [r w]. simpl in Hi. subst r.
  simpl. rewrite Ht, Hf. simpl.
  rewrite add_zero_200, <- !app_assoc. simpl.
  destruct (gt_nv _ _ _); [done|].
  cbn [st_world st_heap st_log].
  destruct (f args w) as [[v|] w']; simpl; rewrite <- !app_assoc; simpl; [|done].
  by rewrite deref_fresh.
Qed.

Lemma typeof_function_callable (x : option export_value) :
  typeof_function x = true -> exists f, x = Some (Callable f).
Proof. destruct x as [[f|k]|]; simpl; try done. eauto. Qed.

End EngineFacts.

(** ** Instantiation with the empty object literal *)

(** Code that has no import to call leaves the platform alone, and what
    it does is the same wherever it runs. *)
Lemma run_prog_no_imports (p : prog) (w w' : World) :
  (run_prog [] p w).2 = w /\ (run_prog [] p w).1 = (run_prog [] p w').1.
Proof. by destruct p. Qed.

(** A module that declares no imports links, and its instance is the same
    whatever the platform's objects are. *)
Lemma instantiate_no_imports rt (m : Module_) (w : World) :
  mod_imports m = [] ->
  instantiate rt m ∅ w
  = (match (run_prog [] (mod_start m) w).1 with
     | Trapped => inl StartTrapped
     | Returned _ =>
         inr {| inst_exports :=
                  list_to_map (List.map (export_of m []) (mod_exports m)) |}
     end, w).
Proof.
  intros Hm. unfold instantiate. rewrite Hm. simpl.
  destruct (run_prog_no_imports (mod_start m) w w) as [Hw _].
  destruct (run_prog [] (mod_start m) w) as [[v|] w0]; simpl in *; by subst.
Qed.

(** The functions of an instance are the module's code run against the
    imports that were resolved. *)
Lemma instance_functions rt (m : Module_) (io : ImportObject) (w : World) inst :
  (instantiate rt m io w).1 = inr inst ->
  exists hosts,
    resolve_imports rt io (mod_imports m) = Some hosts /\
    forall name f, inst_exports inst !! name = Some (Callable f) ->
      f = (fun args => run_prog hosts (mod_code m name args)) /\
      exists d, d ∈ mod_exports m /\ ex_name d = name /\ ex_kind d = KFunction.
Proof.
  unfold instantiate.
  destruct (resolve_imports rt io (mod_imports m)) as [hosts|]; [|done].
  destruct (run_prog hosts (mod_start m) w) as [[v|] w']; [|done]. simpl.
  intros [= <-]. exists hosts. split; [done|]. simpl. intros name f Hl.
  apply elem_of_list_to_map_2, list_elem_of_In, in_map_iff in Hl
    as (d & Hd & Hin).
  unfold export_of in Hd. destruct (ex_kind d) eqn:Hk; simplify_eq.
  split; [done|]. exists d. split; [by apply list_elem_of_In | done].
Qed.



(** ** The routes, refusal by refusal *)

Section RouteFacts.
Variable bi : Builtins.
Variable rt : Runtime.
Variable env : Server.Env.
Variable chain : Server.Chain.

Import Server.

Ltac unfold_route :=
  unfold deploy, interact, tryCreateTransaction, reject_if, userWalletOf;
  unfold Server.bind, perform, reply, Server.ret, Server.run.

(** A request that cannot pay for its gas limit leaves no trace. *)
Lemma deploy_unfunded req :
  lt (calculateBalance env chain (walletAddress (user req)))
     (mul_vn bi (get (body req) "gasLimit") Config.FIXED_GAS_PRICE) = true ->
  exists st msg,
    run (deploy bi rt env chain req) = ([], {| status := st; json := message msg |})
    /\ (st = 400 \/ st = 401).
Proof.
  intros Hlt. unfold_route.
  destruct (ephemeralKeys env !! _) as [eph|]; [|by eauto 6].
  destruct (truthy (get (body req) "rustCode")); simpl; [|by eauto 6].
  destruct (negb _ || le_vn _ _ _); simpl; [by eauto 6|].
  rewrite Hlt. simpl. by eauto 6.
Qed.

Lemma interact_unfunded req :
  lt (calculateBalance env chain (walletAddress (user req)))
     (mul_vn bi (get (body req) "gasLimit") Config.FIXED_GAS_PRICE) = true ->
  exists st msg,
    run (interact bi env chain req) = ([], {| status := st; json := message msg |})
    /\ (st = 400 \/ st = 401).
Proof.
  intros Hlt. unfold_route.
  destruct (ephemeralKeys env !! _) as [eph|]; [|by eauto 6].
  destruct (negb _ || negb _); simpl; [by eauto 6|].
  destruct (negb _ || le_vn _ _ _); simpl; [by eauto 6|].
  rewrite Hlt. simpl. by eauto 6.
Qed.

(** A gas limit below the call cost is refused in the same way. *)
Lemma interact_low_gas req :
  lt_vn bi (get (body req) "gasLimit") (num 200) = true ->
  exists st msg,
    run (interact bi env chain req) = ([], {| status := st; json := message msg |})
    /\ (st = 400 \/ st = 401).
Proof.
  intros Hlt. unfold_route.
  destruct (ephemeralKeys env !! _) as [eph|]; [|by eauto 6].
  destruct (negb _ || negb _); simpl; [by eauto 6|].
  destruct (negb _ || le_vn _ _ _); simpl; [by eauto 6|].
  destruct (lt _ _); simpl; [by eauto 6|].
  rewrite Hlt. simpl. by eauto 6.
Qed.

End RouteFacts.

(* ================================================================== *)
(** * config.js: the constants                                         *)
(* ================================================================== *)

(** C7.  The genesis block is the fixed block with timestamp 1, lastHash
    "------", difficulty 3 (the initial difficulty), nonce 0 and an empty
    data sequence. *)
Theorem genesis_block_constant :
  integer_value (Config.timestamp Config.GENESIS_DATA) = Some 1%Z /\
  Config.lastHash Config.GENESIS_DATA = "------" /\
  Config.difficulty Config.GENESIS_DATA = Config.INITIAL_DIFFICULTY /\
  integer_value (Config.difficulty Config.GENESIS_DATA) = Some 3%Z /\
  Config.nonce Config.GENESIS_DATA = S754_zero false /\
  integer_value (Config.nonce Config.GENESIS_DATA) = Some 0%Z /\
  Config.data Config.GENESIS_DATA = [].
Proof. repeat split; reflexivity. Qed.

(** C8.  The configuration constants have the documented values: the
    mining target period is 1000 ms, the initial difficulty 3, the
    starting balance 1000, the base mining reward 50, and the fixed gas
    price is the number the literal [0.1] denotes: the binary64 number
    [7205759403792794 * 2^-56], which lies within half a unit in the last
    place of one tenth. *)
Theorem config_defaults :
  integer_value Config.MINE_RATE = Some 1000%Z /\
  integer_value Config.INITIAL_DIFFICULTY = Some 3%Z /\
  integer_value Config.STARTING_BALANCE = Some 1000%Z /\
  integer_value Config.MINING_REWARD = Some 50%Z /\
  Config.FIXED_GAS_PRICE = decimal 1 1 /\
  Config.FIXED_GAS_PRICE = S754_finite false 7205759403792794 (-56) /\
  (Z.abs (10 * 7205759403792794 - 2 ^ 56) <= 5)%Z /\
  mul (num 10) Config.FIXED_GAS_PRICE = num 1.
Proof. repeat split; try reflexivity. by vm_compute. Qed.

(* ================================================================== *)
(** * runWasmContract                                                  *)
(* ================================================================== *)

Lemma calls_prepared rt doc s :
  calls (st_log (prepared rt doc s)) = calls (st_log s).
Proof. unfold calls, prepared. simpl. rewrite List.filter_app. simpl. apply app_nil_r. Qed.

Lemma preserved_prepared rt doc s :
  preserved (st_heap s) (st_heap (prepared rt doc s)).
Proof. apply preserved_alloc. Qed.

Lemma world_prepared rt doc s m :
  compile rt (base64_decode rt (codeWasmBase64 doc)) = Some m ->
  st_world (prepared rt doc s) = (instantiate rt m ∅ (st_world s)).2.
Proof. intros Hc. unfold prepared. simpl. by rewrite Hc. Qed.

(** ** Modules without imports, and imports that do not resolve *)

Lemma no_imports_instance rt (m : Module_) (w w' : World) :
  mod_imports m = [] ->
  (instantiate rt m ∅ w).1 = (instantiate rt m ∅ w').1 /\
  (instantiate rt m ∅ w).2 = w.
Proof.
  intros Hm. rewrite !instantiate_no_imports by done. simpl.
  by destruct (run_prog_no_imports (mod_start m) w w') as [_ ->].
Qed.

Lemma no_imports_function rt (m : Module_) (w : World) inst name f :
  mod_imports m = [] ->
  (instantiate rt m ∅ w).1 = inr inst ->
  inst_exports inst !! name = Some (Callable f) ->
  f = (fun args => run_prog [] (mod_code m name args)).
Proof.
  intros Hm Hi Hl.
  destruct (instance_functions rt m ∅ w inst Hi) as (hosts & Hr & Hf).
  rewrite Hm in Hr. simpl in Hr. injection Hr as <-.
  by destruct (Hf name f Hl).
Qed.

(** A run of a module without imports leaves the platform's objects as
    they were. *)
Lemma run_no_imports_world bi rt doc fn args gl s :
  (forall m, compile rt (base64_decode rt (codeWasmBase64 doc)) = Some m ->
             mod_imports m = []) ->
  st_world (runWasmContract bi rt doc fn args gl s).2 = st_world s.
Proof.
  intros Hno.
  destruct (compile rt (base64_decode rt (codeWasmBase64 doc))) as [m|] eqn:Hc.
  2: { by rewrite run_compile_error. }
  pose proof (Hno m eq_refl) as Hm.
  destruct (no_imports_instance rt m (st_world s) (st_world s) Hm) as [_ Hw].
  pose proof (world_prepared rt doc s m Hc) as Hp. rewrite Hw in Hp.
  destruct (instantiate rt m ∅ (st_world s)).1 as [e|inst] eqn:Hi.
  { by rewrite (run_instantiate_error bi rt doc fn args gl s m e). }
  destruct (truthy fn && typeof_function (inst_exports inst !! ToString bi fn))
    eqn:Hf.
  - apply andb_prop in Hf as [Ht Hf].
    destruct (typeof_function_callable _ Hf) as [f Hl].
    rewrite (run_function bi rt doc fn args gl s m inst f) by done.
    destruct (gt_nv bi (num 200) gl); [done|]. cbv zeta.
    rewrite (no_imports_function rt m _ inst _ f Hm Hi Hl), Hp.
    destruct (run_prog_no_imports (mod_code m (ToString bi fn) args)
                (st_world s) (st_world s)) as [Hw' _].
    by destruct (run_prog [] _ (st_world s)) as [[v|] w'].
  - rewrite (run_no_function bi rt doc fn args gl s m inst) by done. simpl.
    by destruct (gt_nv bi _ gl).
Qed.


(** C4.  An invoke of an exported function within the gas budget whose
    function returns [r] yields a state that is the contract's prior state
    with [r] stored under [lastCallResult]: that key reads [r], every
    other key reads as before, and the result reported is [r].  The state
    returned is a new object; the stored one is not written. *)
Theorem invoke_merges_result bi rt doc fn args gl s m inst f r :
  compile rt (base64_decode rt (codeWasmBase64 doc)) = Some m ->
  (instantiate rt m ∅ (st_world s)).1 = inr inst ->
  truthy fn = true ->
  inst_exports inst !! ToString bi fn = Some (Callable f) ->
  gt_nv bi (num 200) gl = false ->
  (f args (instantiate rt m ∅ (st_world s)).2).1 = Returned r ->
  match runWasmContract bi rt doc fn args gl s with
  | (inl _, _) => False
  | (inr res, s') =>
      let prior := deref (st_heap s) (state doc) in
      let new := deref (st_heap s') (Some (newState res)) in
      result res = r /\
      new = <["lastCallResult" := r]> prior /\
      get new "lastCallResult" = r /\
      (forall k, k <> "lastCallResult" -> new !! k = prior !! k) /\
      preserved (st_heap s) (st_heap s')
  end.
Proof.
  intros Hc Hi Ht Hf Hgas Hr.
  rewrite (run_function bi rt doc fn args gl s m inst f Hc Hi Ht Hf).
  rewrite Hgas. cbv zeta. rewrite (world_prepared rt doc s m Hc), Hr. simpl.
  split; [done|]. split; [|split; [|split]].
  - by rewrite insert_insert_eq, deref_fresh.
  - rewrite insert_insert_eq, deref_fresh. unfold get.
    by rewrite lookup_insert_eq.
  - intros k Hk. rewrite insert_insert_eq, deref_fresh.
    by rewrite lookup_insert_ne.
  - apply preserved_alloc_write.
Qed.

Lemma invoke_merges_result_witness :
  match runWasmContract Reference.builtins Reference.runtime
          Reference.answerDoc (Str "answer") [] (Num (num 1000))
          Reference.sampleStore with
  | (inl _, _) => False
  | (inr res, s') =>
      let prior := deref (st_heap Reference.sampleStore) (Some 1%positive) in
      let new := deref (st_heap s') (Some (newState res)) in
      result res = Num (num 42) /\
      new = <["lastCallResult" := Num (num 42)]> prior /\
      get new "lastCallResult" = Num (num 42) /\
      (forall k, k <> "lastCallResult" -> new !! k = prior !! k) /\
      preserved (st_heap Reference.sampleStore) (st_heap s')
  end.
Proof.
  apply (invoke_merges_result Reference.builtins Reference.runtime
           Reference.answerDoc (Str "answer") [] (Num (num 1000))
           Reference.sampleStore Reference.answerModule
           {| inst_exports :=
                list_to_map
                  [("answer",
                    Callable (fun args =>
                      run_prog [] (mod_code Reference.answerModule "answer" args)))] |}
           (fun args => run_prog [] (mod_code Reference.answerModule "answer" args))
           (Num (num 42)));
    vm_compute; reflexivity.
Defined.

(** C1 does not hold as stated: a name that is not an export does not
    make the call fail.  On the eight-byte module, which exports nothing,
    invoking [transfer] with a gas limit of 1000 returns normally, with
    eight units of gas used and a null result. *)
Lemma missing_function_call_succeeds :
  compile Reference.runtime
    (base64_decode Reference.runtime (codeWasmBase64 Reference.emptyDoc))
    = Some Reference.emptyModule /\
  (instantiate Reference.runtime Reference.emptyModule ∅
     (st_world Reference.sampleStore)).1 = inr {| inst_exports := ∅ |} /\
  typeof_function ((∅ : gmap string export_value) !! "transfer") = false /\
  (runWasmContract Reference.builtins Reference.runtime Reference.emptyDoc
     (Str "transfer") [] (Num (num 1000)) Reference.sampleStore).1
  = inr {| newState := 2%positive; usedGas := num 8; result := Null |}.
Proof.
  repeat split; by vm_compute.
Qed.

(** C1, amended.  If [functionName] is not an exported function of the
    instantiated module, no function is called and the call is charged the
    bytecode length: it fails with the out-of-gas error when that length
    exceeds [gasLimit], and otherwise returns with a null result, the
    bytecode length as gas used and a state equal to the contract's prior
    state.  Either way no object the application held before is changed
    and no [lastCallResult] is written. *)
Theorem missing_function_charged_code_size bi rt doc fn args gl s m inst :
  compile rt (base64_decode rt (codeWasmBase64 doc)) = Some m ->
  (instantiate rt m ∅ (st_world s)).1 = inr inst ->
  typeof_function (inst_exports inst !! ToString bi fn) = false ->
  let codeSize := num (Z.of_nat (length (base64_decode rt (codeWasmBase64 doc)))) in
  match runWasmContract bi rt doc fn args gl s with
  | (inl e, s') =>
      gt_nv bi codeSize gl = true /\
      e = Error "Out of gas (code size cost too high)" /\
      preserved (st_heap s) (st_heap s') /\
      calls (st_log s') = calls (st_log s)
  | (inr res, s') =>
      gt_nv bi codeSize gl = false /\
      usedGas res = codeSize /\
      result res = Null /\
      deref (st_heap s') (Some (newState res)) = deref (st_heap s) (state doc) /\
      preserved (st_heap s) (st_heap s') /\
      calls (st_log s') = calls (st_log s)
  end.
Proof.
  intros Hc Hi Hf codeSize.
  rewrite (run_no_function bi rt doc fn args gl s m inst Hc Hi)
    by (rewrite Hf; apply andb_false_r).
  fold codeSize. simpl.
  destruct (gt_nv bi codeSize gl) eqn:Hg.
  - repeat split; [apply preserved_prepared | apply calls_prepared].
  - repeat split;
      [apply deref_fresh | apply preserved_prepared | apply calls_prepared].
Qed.

Lemma missing_function_charged_code_size_witness :
  match runWasmContract Reference.builtins Reference.runtime Reference.emptyDoc
          (Str "transfer") [] (Num (num 1000)) Reference.sampleStore with
  | (inl e, s') =>
      gt_nv Reference.builtins (num 8) (Num (num 1000)) = true /\
      e = Error "Out of gas (code size cost too high)" /\
      preserved (st_heap Reference.sampleStore) (st_heap s') /\
      calls (st_log s') = calls (st_log Reference.sampleStore)
  | (inr res, s') =>
      gt_nv Reference.builtins (num 8) (Num (num 1000)) = false /\
      usedGas res = num 8 /\
      result res = Null /\
      deref (st_heap s') (Some (newState res))
        = deref (st_heap Reference.sampleStore) (Some 1%positive) /\
      preserved (st_heap Reference.sampleStore) (st_heap s') /\
      calls (st_log s') = calls (st_log Reference.sampleStore)
  end.
Proof.
  apply (missing_function_charged_code_size Reference.builtins
           Reference.runtime Reference.emptyDoc (Str "transfer") []
           (Num (num 1000)) Reference.sampleStore Reference.emptyModule
           {| inst_exports := ∅ |});
    vm_compute; reflexivity.
Defined.

(** C2.  An invoke of an exported function is charged 200 units, and
    nothing else decides whether it runs.  A run that returns reports 200
    as gas used.  When 200 exceeds [gasLimit] the run throws the
    out-of-gas error with no function called and no object of the
    application changed; so it does for a gas limit of 150.  When 200 does not exceed
    [gasLimit] the function is called, once, with the arguments given, and
    the run returns what it returned with 200 as gas used, or throws the
    function's own trap: the out-of-gas error is thrown exactly when 200
    exceeds [gasLimit].  The interact route refuses a request with a gas
    limit below 200 before any transaction is made. *)
Theorem invoke_charged_200 bi rt doc fn args gl s m inst :
  compile rt (base64_decode rt (codeWasmBase64 doc)) = Some m ->
  (instantiate rt m ∅ (st_world s)).1 = inr inst ->
  truthy fn = true ->
  typeof_function (inst_exports inst !! ToString bi fn) = true ->
  match runWasmContract bi rt doc fn args gl s with
  | (inr res, _) => usedGas res = num 200 /\ gt_nv bi (num 200) gl = false
  | (inl _, _) => True
  end /\
  (gt_nv bi (num 200) gl = true ->
   runWasmContract bi rt doc fn args gl s
     = (inl (Error "Out of gas before function call"), prepared rt doc s) /\
   calls (st_log (prepared rt doc s)) = calls (st_log s) /\
   preserved (st_heap s) (st_heap (prepared rt doc s))) /\
  (runWasmContract bi rt doc fn args (Num (num 150)) s
     = (inl (Error "Out of gas before function call"), prepared rt doc s)) /\
  (forall env chain req,
     lt_vn bi (get (Server.body req) "gasLimit") (num 200) = true ->
     exists st msg,
       Server.run (Server.interact bi env chain req)
         = ([], {| Server.status := st; Server.json := Server.message msg |})
       /\ (st = 400 \/ st = 401)) /\
  ((runWasmContract bi rt doc fn args gl s).1
     = inl (Error "Out of gas before function call")
   <-> gt_nv bi (num 200) gl = true) /\
  (gt_nv bi (num 200) gl = false ->
   exists f,
     inst_exports inst !! ToString bi fn = Some (Callable f) /\
     calls (st_log (runWasmContract bi rt doc fn args gl s).2)
       = (calls (st_log s) ++ [EvCall (ToString bi fn) args])%list /\
     (runWasmContract bi rt doc fn args gl s).1
       = match (f args (instantiate rt m ∅ (st_world s)).2).1 with
         | Returned v => inr {| newState := fresh (dom (st_heap s));
                                usedGas := num 200;
                                result := v |}
         | Trapped => inl RuntimeError
         end).
Proof.
  intros Hc Hi Ht Hf.
  destruct (typeof_function_callable _ Hf) as [f Hl].
  pose proof (run_function bi rt doc fn args) as Hrun.
  pose proof (world_prepared rt doc s m Hc) as Hw.
  split; [|split; [|split; [|split; [|split]]]].
  - rewrite (Hrun gl s m inst f Hc Hi Ht Hl).
    destruct (gt_nv bi (num 200) gl); [done|]. cbv zeta.
    by destruct (f args _) as [[v|] w'].
  - intros Hgas. split; [|split].
    + by rewrite (Hrun gl s m inst f Hc Hi Ht Hl), Hgas.
    + apply calls_prepared.
    + apply preserved_prepared.
  - by rewrite (Hrun (Num (num 150)) s m inst f Hc Hi Ht Hl).
  - intros env chain req. apply interact_low_gas.
  - rewrite (Hrun gl s m inst f Hc Hi Ht Hl).
    destruct (gt_nv bi (num 200) gl); [done|]. cbv zeta.
    by destruct (f args _) as [[v|] w'].
  - intros Hgas. exists f. split; [done|].
    rewrite (Hrun gl s m inst f Hc Hi Ht Hl), Hgas. cbv zeta. rewrite Hw.
    destruct (f args _) as [[v|] w']; simpl;
      (split; [|done]);
      unfold calls; rewrite !List.filter_app; simpl;
      by rewrite app_nil_r.
Qed.

Lemma invoke_charged_200_witness :
  let run := runWasmContract Reference.builtins Reference.runtime
               Reference.answerDoc (Str "answer") [] in
  let answer := fun args : list value =>
    run_prog [] (mod_code Reference.answerModule "answer" args) in
  let inst := {| inst_exports := list_to_map [("answer", Callable answer)] |} in
  match run (Num (num 1000)) Reference.sampleStore with
  | (inr res, _) =>
      usedGas res = num 200 /\
      gt_nv Reference.builtins (num 200) (Num (num 1000)) = false
  | (inl _, _) => True
  end /\
  (gt_nv Reference.builtins (num 200) (Num (num 1000)) = true ->
   run (Num (num 1000)) Reference.sampleStore
     = (inl (Error "Out of gas before function call"),
        prepared Reference.runtime Reference.answerDoc Reference.sampleStore) /\
   calls (st_log (prepared Reference.runtime Reference.answerDoc
                    Reference.sampleStore))
     = calls (st_log Reference.sampleStore) /\
   preserved (st_heap Reference.sampleStore)
     (st_heap (prepared Reference.runtime Reference.answerDoc
                 Reference.sampleStore))) /\
  (run (Num (num 150)) Reference.sampleStore
     = (inl (Error "Out of gas before function call"),
        prepared Reference.runtime Reference.answerDoc Reference.sampleStore)) /\
  (forall env chain req,
     lt_vn Reference.builtins (get (Server.body req) "gasLimit") (num 200) = true ->
     exists st msg,
       Server.run (Server.interact Reference.builtins env chain req)
         = ([], {| Server.status := st; Server.json := Server.message msg |})
       /\ (st = 400 \/ st = 401)) /\
  ((run (Num (num 1000)) Reference.sampleStore).1
     = inl (Error "Out of gas before function call")
   <-> gt_nv Reference.builtins (num 200) (Num (num 1000)) = true) /\
  (gt_nv Reference.builtins (num 200) (Num (num 1000)) = false ->
   exists f,
     inst_exports inst !! ToString Reference.builtins (Str "answer")
       = Some (Callable f) /\
     calls (st_log (run (Num (num 1000)) Reference.sampleStore).2)
       = (calls (st_log Reference.sampleStore)
          ++ [EvCall (ToString Reference.builtins (Str "answer")) []])%list /\
     (run (Num (num 1000)) Reference.sampleStore).1
       = match (f [] (instantiate Reference.runtime Reference.answerModule ∅
                        (st_world Reference.sampleStore)).2).1 with
         | Returned v => inr {| newState := fresh (dom (st_heap Reference.sampleStore));
                                usedGas := num 200;
                                result := v |}
         | Trapped => inl RuntimeError
         end).
Proof.
  intros run answer inst.
  apply (invoke_charged_200 Reference.builtins Reference.runtime
           Reference.answerDoc (Str "answer") [] (Num (num 1000))
           Reference.sampleStore Reference.answerModule inst);
    vm_compute; reflexivity.
Defined.

(** C5.  A run that returns, with or without a function called, reports
    a gas use that does not exceed [gasLimit] (it is at most [gasLimit]
    whenever [gasLimit] converts to a number); a run that throws leaves
    every object the application held before, the contract's state among
    them, as it was. *)
Theorem gas_bounded_and_failure_keeps_state bi rt doc fn args gl s :
  match runWasmContract bi rt doc fn args gl s with
  | (inr res, _) =>
      gt_nv bi (usedGas res) gl = false /\
      (is_nan (ToNumber bi gl) = false ->
       le (usedGas res) (ToNumber bi gl) = true)
  | (inl _, s') => preserved (st_heap s) (st_heap s')
  end.
Proof.
  assert (Hle : forall z, gt_nv bi (num z) gl = false ->
            gt_nv bi (num z) gl = false /\
            (is_nan (ToNumber bi gl) = false ->
             le (num z) (ToNumber bi gl) = true)).
  { intros z Hn. split; [done|]. intros Hb.
    by apply not_gt_le; [apply num_not_nan | |]. }
  destruct (compile rt (base64_decode rt (codeWasmBase64 doc))) as [m|] eqn:Hc.
  2: { rewrite run_compile_error by done. apply preserved_prepared. }
  destruct (instantiate rt m ∅ (st_world s)).1 as [e|inst] eqn:Hi.
  { rewrite (run_instantiate_error bi rt doc fn args gl s m e) by done.
    apply preserved_prepared. }
  destruct (truthy fn && typeof_function (inst_exports inst !! ToString bi fn))
    eqn:Hf.
  - apply andb_prop in Hf as [Ht Hf].
    destruct (typeof_function_callable _ Hf) as [f Hl].
    rewrite (run_function bi rt doc fn args gl s m inst f) by done.
    destruct (gt_nv bi (num 200) gl) eqn:Hg; [apply preserved_prepared|].
    cbv zeta.
    destruct (f args _) as [[v|] w']; simpl;
      [by apply Hle | apply (preserved_prepared rt doc s)].
  - rewrite (run_no_function bi rt doc fn args gl s m inst) by done. simpl.
    destruct (gt_nv bi _ gl) eqn:Hg; [apply preserved_prepared | by apply Hle].
Qed.

Lemma gas_bounded_and_failure_keeps_state_witness :
  match runWasmContract Reference.builtins Reference.runtime
          Reference.answerDoc (Str "answer") [] (Num (num 1000))
          Reference.sampleStore with
  | (inr res, _) =>
      gt_nv Reference.builtins (usedGas res) (Num (num 1000)) = false /\
      (is_nan (ToNumber Reference.builtins (Num (num 1000))) = false ->
       le (usedGas res) (ToNumber Reference.builtins (Num (num 1000))) = true)
  | (inl _, s') => preserved (st_heap Reference.sampleStore) (st_heap s')
  end.
Proof.
  exact (gas_bounded_and_failure_keeps_state Reference.builtins
           Reference.runtime Reference.answerDoc (Str "answer") []
           (Num (num 1000)) Reference.sampleStore).
Defined.

(** C6.  The helper instantiates the module with the empty object
    literal as import object, which gives the module no import of the
    application's; but on an object literal an import resolves through
    what every object inherits, so a module can still reach functions of
    the platform, and what it computes then depends on more than its
    arguments, the contract's state and the gas limit.  The module of
    [Reference.probeModuleBytes] imports [constructor.getPrototypeOf],
    [constructor.isFrozen] and [constructor.freeze]; invoked twice with
    the same function name, arguments and gas limit on the same stored
    contract, whose state the first run did not change, its [probe]
    returns 0 the first time and 1 the second. *)
Theorem probe_result_differs_between_runs :
  let run := runWasmContract Reference.builtins Reference.runtime
               Reference.probeDoc (Str "probe") [] (Num (num 1000)) in
  let first := run Reference.sampleStore in
  let second := run first.2 in
  base64_decode Reference.runtime (codeWasmBase64 Reference.probeDoc)
    = Reference.probeModuleBytes /\
  compile Reference.runtime Reference.probeModuleBytes
    = Some Reference.probeModule /\
  deref (st_heap first.2) (state Reference.probeDoc)
    = deref (st_heap Reference.sampleStore) (state Reference.probeDoc) /\
  observe first
    = inr (<["lastCallResult" := Num (num 0)]> Reference.counterState,
           num 200, Num (num 0)) /\
  observe second
    = inr (<["lastCallResult" := Num (num 1)]> Reference.counterState,
           num 200, Num (num 1)) /\
  observe first <> observe second.
Proof.
  repeat split; try by vm_compute.
Qed.

(* ================================================================== *)
(** * The deploy and interact routes                                   *)
(* ================================================================== *)

(** C9.  A deploy or interact request whose sender's balance, computed
    from the chain, is below [gasLimit * FIXED_GAS_PRICE] is answered with
    an error status and a message, and the handler performs nothing: no
    build, no transaction created, pooled or broadcast. *)
Theorem unfunded_request_refused bi rt env chain req :
  lt (Server.calculateBalance env chain (Server.walletAddress (Server.user req)))
     (mul_vn bi (get (Server.body req) "gasLimit") Config.FIXED_GAS_PRICE) = true ->
  (exists st msg,
     Server.run (Server.deploy bi rt env chain req)
       = ([], {| Server.status := st; Server.json := Server.message msg |})
     /\ (st = 400 \/ st = 401)) /\
  (exists st msg,
     Server.run (Server.interact bi env chain req)
       = ([], {| Server.status := st; Server.json := Server.message msg |})
     /\ (st = 400 \/ st = 401)).
Proof.
  intros Hlt. split; [by apply deploy_unfunded | by apply interact_unfunded].
Qed.

Lemma unfunded_request_refused_witness :
  (exists st msg,
     Server.run (Server.deploy Reference.builtins Reference.runtime
                   Reference.sampleEnv []
                   (Reference.sampleRequest (Arr []) (Num (num 20000))))
       = ([], {| Server.status := st; Server.json := Server.message msg |})
     /\ (st = 400 \/ st = 401)) /\
  (exists st msg,
     Server.run (Server.interact Reference.builtins Reference.sampleEnv []
                   (Reference.sampleRequest (Arr []) (Num (num 20000))))
       = ([], {| Server.status := st; Server.json := Server.message msg |})
     /\ (st = 400 \/ st = 401)).
Proof.
  apply (unfunded_request_refused Reference.builtins Reference.runtime
           Reference.sampleEnv [] (Reference.sampleRequest (Arr []) (Num (num 20000)))).
  vm_compute. reflexivity.
Defined.

(** What [v => Number(v) || 0] returns is a number that is not NaN and
    not the negative zero. *)
Lemma NumberOrZero_proper bi (v : value) :
  is_nan (NumberOrZero bi v) = false /\ NumberOrZero bi v <> S754_zero true.
Proof.
  unfold NumberOrZero, truthy.
  destruct (ToNumber bi v) as [[|]| | |]; simpl; by split.
Qed.

(** C10.  The transaction the interact route pools carries a
    [functionArgs] array of numbers: the empty array when the request's
    [functionArgs] is not an array, and otherwise, element by element,
    [Number(v)], or 0 where [Number(v)] is NaN or a zero.  No element is
    NaN. *)
Theorem pooled_function_args_are_numbers bi env chain req tx :
  Server.SetTransaction tx ∈ (Server.run (Server.interact bi env chain req)).1 ->
  let given := get (Server.body req) "functionArgs" in
  tx !! "functionArgs" = Some (Arr (Server.coerceArgs bi given)) /\
  (is_array given = false -> Server.coerceArgs bi given = []) /\
  (forall l, given = Arr l ->
     Server.coerceArgs bi given
     = List.map (fun v => Num (if is_nan (ToNumber bi v) || is_zero (ToNumber bi v)
                               then num 0 else ToNumber bi v)) l) /\
  Forall (fun a => exists n, a = Num n /\ is_nan n = false)
         (Server.coerceArgs bi given).
Proof.
  intros Hin given. split; [|split; [|split]].
  - revert Hin.
    unfold Server.interact, Server.tryCreateTransaction, Server.reject_if,
      Server.userWalletOf.
    unfold Server.bind, Server.perform, Server.reply, Server.ret, Server.run.
    destruct (Server.ephemeralKeys env !! _) as [eph|]; simpl;
      [|by rewrite elem_of_nil].
    destruct (negb _ || negb _); simpl; [by rewrite elem_of_nil|].
    destruct (negb _ || le_vn _ _ _); simpl; [by rewrite elem_of_nil|].
    destruct (lt _ _); simpl; [by rewrite elem_of_nil|].
    destruct (lt_vn _ _ _); simpl; [by rewrite elem_of_nil|].
    destruct (Server.createTransaction env _ _ _ _) as [msg|tx0]; simpl.
    + rewrite elem_of_cons, elem_of_nil. by intros [?|[]].
    + rewrite !elem_of_cons, elem_of_nil.
      intros [?|[?|[?|[]]]]; simplify_eq.
      by simplify_map_eq.
  - by destruct given.
  - intros l ->. simpl. apply map_ext. intros v.
    unfold NumberOrZero, truthy. by destruct (_ || _).
  - destruct given; simpl; try by constructor.
    apply Forall_forall. intros a Ha.
    apply list_elem_of_In, in_map_iff in Ha as (v & <- & _).
    eexists; split; [done|]. apply NumberOrZero_proper.
Qed.

Lemma pooled_function_args_are_numbers_witness :
  let given := Arr [Str "12"; Str "x"; Null; Num (num 3)] in
  let tx := Reference.interactTransaction
              [Num (num 12); Num (num 0); Num (num 0); Num (num 3)]
              (Num (num 6000)) in
  tx !! "functionArgs" = Some (Arr (Server.coerceArgs Reference.builtins given)) /\
  (is_array given = false -> Server.coerceArgs Reference.builtins given = []) /\
  (forall l, given = Arr l ->
     Server.coerceArgs Reference.builtins given
     = List.map (fun v => Num (if is_nan (ToNumber Reference.builtins v)
                                  || is_zero (ToNumber Reference.builtins v)
                               then num 0 else ToNumber Reference.builtins v)) l) /\
  Forall (fun a => exists n, a = Num n /\ is_nan n = false)
         (Server.coerceArgs Reference.builtins given).
Proof.
  apply (pooled_function_args_are_numbers Reference.builtins Reference.sampleEnv []
           (Reference.sampleRequest (Arr [Str "12"; Str "x"; Null; Num (num 3)])
              (Num (num 6000)))).
  vm_compute. right. left.
Defined.

Section DeployFacts.
Variable bi : Builtins.
Variable rt : Runtime.
Variable env : Server.Env.
Variable chain : Server.Chain.
Variable req : Server.Request.
Variable eph : Server.EphemeralKey.
Variable wasm : bytes.

Let rustCode := get (Server.body req) "rustCode".
Let gasLimit := get (Server.body req) "gasLimit".
Let codeSize := num (Z.of_nat (length wasm)).
Let wallet := Server.userWalletOf env chain eph (Server.user req).

(** The request passes every check that comes before the gas check, and
    the build yields [wasm]. *)
Hypothesis Hkey : Server.ephemeralKeys env !! Server.userId (Server.user req) = Some eph.
Hypothesis Hcode : truthy rustCode = true.
Hypothesis Hlimit : negb (truthy gasLimit) || le_vn bi gasLimit (num 0) = false.
Hypothesis Hfunds :
  lt (Server.wallet_balance wallet) (mul_vn bi gasLimit Config.FIXED_GAS_PRICE) = false.
Hypothesis Hbuild : Server.cargoBuild env rustCode = Server.Built wasm.

Lemma deploy_out_of_gas :
  gt_nv bi codeSize gasLimit = true ->
  Server.run (Server.deploy bi rt env chain req)
  = ([Server.CargoBuild rustCode],
     {| Server.status := 400;
        Server.json := Server.message
          ("Out of gas: " ++ ToString bi (Num codeSize) ++ " > "
           ++ ToString bi gasLimit) |}).
Proof.
  intros Hg.
  unfold Server.deploy, Server.tryCreateTransaction, Server.reject_if.
  unfold Server.bind, Server.perform, Server.reply, Server.ret, Server.run.
  rewrite Hkey. cbv zeta. fold rustCode gasLimit wallet codeSize.
  rewrite Hcode, Hlimit, Hfunds, Hbuild. cbv beta iota zeta.
  fold codeSize. by rewrite Hg.
Qed.

Lemma deploy_created tx0 :
  gt_nv bi codeSize gasLimit = false ->
  Server.createTransaction env wallet (Server.walletAddress (Server.user req))
    (num 0) chain = inr tx0 ->
  exists tx body,
    Server.run (Server.deploy bi rt env chain req)
    = ([Server.CargoBuild rustCode;
        Server.CreateTransaction wallet (Server.walletAddress (Server.user req)) (num 0);
        Server.SetTransaction tx;
        Server.BroadcastTransaction tx],
       {| Server.status := 200; Server.json := Obj body |}) /\
    tx !! "exportedFunctions"
      = Some (Arr (List.map Str (Server.discoverExports rt wasm))) /\
    tx !! "isDeploy" = Some (Boolean true) /\
    tx !! "gasLimit" = Some gasLimit /\
    body !! "codeSize" = Some (Num codeSize) /\
    body !! "transaction" = Some (Obj tx).
Proof.
  intros Hg Htx.
  unfold Server.deploy, Server.tryCreateTransaction, Server.reject_if.
  unfold Server.bind, Server.perform, Server.reply, Server.ret, Server.run.
  rewrite Hkey. cbv zeta. fold rustCode gasLimit wallet codeSize.
  rewrite Hcode, Hlimit, Hfunds, Hbuild. cbv beta iota zeta.
  fold codeSize. rewrite Hg, Htx. simpl.
  eexists _, _. split; [reflexivity|].
  repeat split; by simplify_map_eq.
Qed.

End DeployFacts.

(** ** The names the deploy route records *)

Lemma function_export_names_spec (m : Module_) (name : string) :
  name ∈ function_export_names m <->
  exists d, d ∈ mod_exports m /\ ex_name d = name /\ ex_kind d = KFunction.
Proof.
  unfold function_export_names.
  rewrite list_elem_of_In, in_map_iff. split.
  - intros (d & Hn & Hin). apply filter_In in Hin as [Hin Hk].
    exists d. split; [by apply list_elem_of_In|]. split; [done|].
    unfold is_function_desc in Hk. by destruct (ex_kind d).
  - intros (d & Hin & Hn & Hk). exists d. split; [done|].
    apply filter_In. split; [by apply list_elem_of_In|].
    unfold is_function_desc. by rewrite Hk.
Qed.

Lemma function_export_names_sublist (m : Module_) :
  sublist (function_export_names m) (ex_name <$> mod_exports m).
Proof.
  unfold function_export_names.
  induction (mod_exports m) as [|d l IH]; simpl; [constructor|].
  destruct (is_function_desc d); simpl; by constructor.
Qed.

(** The functions among an instance's exports are the module's exports of
    kind function, when no two exports share a name. *)
Lemma instance_function_exports rt (m : Module_) (io : ImportObject)
    (w : World) inst (name : string) :
  NoDup (ex_name <$> mod_exports m) ->
  (instantiate rt m io w).1 = inr inst ->
  typeof_function (inst_exports inst !! name) = true <->
  exists d, d ∈ mod_exports m /\ ex_name d = name /\ ex_kind d = KFunction.
Proof.
  intros Hnd Hi. split.
  - intros Hf. destruct (typeof_function_callable _ Hf) as [f Hl].
    destruct (instance_functions rt m io w inst Hi) as (hosts & _ & Hfs).
    by destruct (Hfs name f Hl).
  - intros (d & Hin & Hn & Hk).
    revert Hi. unfold instantiate.
    destruct (resolve_imports rt io (mod_imports m)) as [hosts|]; [|done].
    destruct (run_prog hosts (mod_start m) w) as [[v|] w']; [|done]. simpl.
    intros [= <-]. simpl.
    assert (Hl : (list_to_map (List.map (export_of m hosts) (mod_exports m))
                    : gmap string export_value) !! name
                 = Some (Callable (fun args =>
                           run_prog hosts (mod_code m name args)))).
    { apply elem_of_list_to_map_1.
      - replace ((List.map (export_of m hosts) (mod_exports m)).*1)
          with (ex_name <$> mod_exports m); [done|].
        clear. induction (mod_exports m) as [|d l IH]; [done|].
        simpl. f_equal. exact IH.
      - apply list_elem_of_In, in_map_iff. exists d.
        split; [|by apply list_elem_of_In].
        unfold export_of. by rewrite Hk, Hn. }
    by rewrite Hl.
Qed.

(** C3.  A deployment costs the bytecode length.  In the deploy route, a
    request that reaches the gas check with bytecode longer than
    [gasLimit] is answered 400 with the message "Out of gas: <length> >
    <gasLimit>" and nothing is created; otherwise, the wallet having made
    the carrying transaction, the transaction is pooled and broadcast with
    [exportedFunctions] the names of the module's function exports: a name
    is recorded exactly when the module declares an export of that name
    and of kind function, the names come in declaration order, none is
    recorded for bytecode that does not compile, and, export names being
    distinct, the recorded names are distinct and are exactly the names
    under which an instance of the module holds a function.  Bytecode of
    length 5000 exceeds a limit of 4000 and not one of 6000.  In
    [runWasmContract], a run without function name is charged the same
    length. *)
Theorem deploy_costs_bytecode_length bi rt env chain req eph wasm :
  let rustCode := get (Server.body req) "rustCode" in
  let gasLimit := get (Server.body req) "gasLimit" in
  let codeSize := num (Z.of_nat (length wasm)) in
  let wallet := Server.userWalletOf env chain eph (Server.user req) in
  Server.ephemeralKeys env !! Server.userId (Server.user req) = Some eph ->
  truthy rustCode = true ->
  negb (truthy gasLimit) || le_vn bi gasLimit (num 0) = false ->
  lt (Server.wallet_balance wallet) (mul_vn bi gasLimit Config.FIXED_GAS_PRICE) = false ->
  Server.cargoBuild env rustCode = Server.Built wasm ->
  (gt_nv bi codeSize gasLimit = true ->
   Server.run (Server.deploy bi rt env chain req)
   = ([Server.CargoBuild rustCode],
      {| Server.status := 400;
         Server.json := Server.message
           ("Out of gas: " ++ ToString bi (Num codeSize) ++ " > "
            ++ ToString bi gasLimit) |})) /\
  (gt_nv bi codeSize gasLimit = false ->
   forall tx0,
     Server.createTransaction env wallet (Server.walletAddress (Server.user req))
       (num 0) chain = inr tx0 ->
     exists tx body names,
       Server.run (Server.deploy bi rt env chain req)
       = ([Server.CargoBuild rustCode;
           Server.CreateTransaction wallet (Server.walletAddress (Server.user req)) (num 0);
           Server.SetTransaction tx;
           Server.BroadcastTransaction tx],
          {| Server.status := 200; Server.json := Obj body |}) /\
       tx !! "exportedFunctions" = Some (Arr (List.map Str names)) /\
       (compile rt wasm = None -> names = []) /\
       (forall m, compile rt wasm = Some m ->
          (forall name,
             name ∈ names <->
             exists d, d ∈ mod_exports m /\ ex_name d = name /\ ex_kind d = KFunction) /\
          sublist names (ex_name <$> mod_exports m) /\
          (NoDup (ex_name <$> mod_exports m) ->
           NoDup names /\
           forall w inst name,
             (instantiate rt m ∅ w).1 = inr inst ->
             (name ∈ names <-> typeof_function (inst_exports inst !! name) = true))) /\
       body !! "codeSize" = Some (Num codeSize) /\
       body !! "transaction" = Some (Obj tx)) /\
  (length wasm = 5000%nat ->
   gt_nv bi codeSize (Num (num 4000)) = true /\
   gt_nv bi codeSize (Num (num 6000)) = false) /\
  (forall doc args s m inst,
     base64_decode rt (codeWasmBase64 doc) = wasm ->
     compile rt wasm = Some m ->
     (instantiate rt m ∅ (st_world s)).1 = inr inst ->
     runWasmContract bi rt doc Undefined args gasLimit s
     = if gt_nv bi codeSize gasLimit
       then (inl (Error "Out of gas (code size cost too high)"), prepared rt doc s)
       else (inr {| newState := fresh (dom (st_heap s));
                    usedGas := codeSize;
                    result := Null |}, prepared rt doc s)).
Proof.
  intros rustCode gasLimit codeSize wallet Hkey Hcode Hlimit Hfunds Hbuild.
  split; [|split; [|split]].
  - intros Hg.
    by apply (deploy_out_of_gas bi rt env chain req eph wasm).
  - intros Hg tx0 Htx.
    destruct (deploy_created bi rt env chain req eph wasm
                Hkey Hcode Hlimit Hfunds Hbuild tx0 Hg Htx)
      as (tx & body & Hrun & Hex & _ & _ & Hsize & Htr).
    exists tx, body, (Server.discoverExports rt wasm).
    split; [done|]. split; [done|]. split; [|split; [|done]].
    + unfold Server.discoverExports. by intros ->.
    + intros m Hm. unfold Server.discoverExports. rewrite Hm.
      split; [apply function_export_names_spec|].
      split; [apply function_export_names_sublist|].
      intros Hnd. split.
      * pose proof (function_export_names_sublist m) as Hsub.
        by eapply sublist_NoDup.
      * intros w inst name Hi.
        rewrite function_export_names_spec.
        symmetry. by apply (instance_function_exports rt m ∅ w).
  - intros Hlen. unfold codeSize. rewrite Hlen. by vm_compute.
  - intros doc args s m inst Hdec Hc Hi. subst wasm.
    by rewrite (run_no_function bi rt doc Undefined args gasLimit s m inst Hc Hi).
Qed.

Lemma deploy_costs_bytecode_length_witness :
  exists tx body names,
    Server.run (Server.deploy Reference.builtins Reference.runtime
                  Reference.sampleEnv []
                  (Reference.sampleRequest (Arr []) (Num (num 6000))))
    = ([Server.CargoBuild (Str "#[no_mangle] pub extern fn answer() -> i32 { 42 }");
        Server.CreateTransaction
          {| Server.wallet_keyPair := "c0ffee";
             Server.wallet_publicKey := "04ab";
             Server.wallet_balance := Config.STARTING_BALANCE |}
          "04ab" (num 0);
        Server.SetTransaction tx;
        Server.BroadcastTransaction tx],
       {| Server.status := 200; Server.json := Obj body |}) /\
    tx !! "exportedFunctions" = Some (Arr (List.map Str names)) /\
    "answer" ∈ names /\
    sublist names ["answer"] /\
    body !! "codeSize" = Some (Num (num 39)).
Proof.
  destruct (deploy_costs_bytecode_length Reference.builtins Reference.runtime
              Reference.sampleEnv []
              (Reference.sampleRequest (Arr []) (Num (num 6000)))
              {| Server.privateKey := "c0ffee"; Server.publicKey := "04ab" |}
              Reference.answerModuleBytes)
    as (_ & Hok & _); try (vm_compute; reflexivity).
  destruct (Hok ltac:(vm_compute; reflexivity) Reference.sampleTransaction
              ltac:(vm_compute; reflexivity))
    as (tx & body & names & Hrun & Hex & _ & Hnames & Hsize & _).
  destruct (Hnames Reference.answerModule ltac:(vm_compute; reflexivity))
    as (Hin & Hsub & _).
  exists tx, body, names. split; [exact Hrun|]. split; [exact Hex|].
  split; [|split; [exact Hsub | exact Hsize]].
  apply Hin. exists {| ex_name := "answer"; ex_kind := KFunction |}.
  split; [apply list_elem_of_here | split; reflexivity].
Defined.

(* ================================================================== *)
(** * More on runWasmContract                                          *)
(* ================================================================== *)



(** Every run takes one of five courses. *)
Lemma run_cases bi rt doc fn args gl s :
  let b := base64_decode rt (codeWasmBase64 doc) in
  let called w := {| st_heap := st_heap (prepared rt doc s);
                     st_log := (st_log (prepared rt doc s)
                                ++ [EvCall (ToString bi fn) args])%list;
                     st_world := w |} in
  (exists e, runWasmContract bi rt doc fn args gl s
             = (inl e, {| st_heap := st_heap (prepared rt doc s);
                          st_log := (st_log s ++ [EvCompile b])%list;
                          st_world := st_world s |})) \/
  (exists e, runWasmContract bi rt doc fn args gl s = (inl e, prepared rt doc s)) \/
  (exists res, runWasmContract bi rt doc fn args gl s = (inr res, prepared rt doc s)
               /\ newState res = fresh (dom (st_heap s))) \/
  (exists e w, runWasmContract bi rt doc fn args gl s = (inl e, called w)) \/
  (exists res v w, runWasmContract bi rt doc fn args gl s
     = (inr res,
        {| st_heap := <[fresh (dom (st_heap s)) :=
                          <["lastCallResult" := v]> (deref (st_heap s) (state doc))]>
                        (st_heap (prepared rt doc s));
           st_log := st_log (called w);
           st_world := w |})
     /\ newState res = fresh (dom (st_heap s))).
Proof.
  intros b called.
  destruct (compile rt b) as [m|] eqn:Hc.
  2: { left. eexists. by apply run_compile_error. }
  destruct (instantiate rt m ∅ (st_world s)).1 as [e|inst] eqn:Hi.
  { right; left. eexists. by apply (run_instantiate_error bi rt doc fn args gl s m e). }
  destruct (truthy fn && typeof_function (inst_exports inst !! ToString bi fn))
    eqn:Hf.
  - apply andb_prop in Hf as [Ht Hf].
    destruct (typeof_function_callable _ Hf) as [f Hl].
    rewrite (run_function bi rt doc fn args gl s m inst f) by done.
    destruct (gt_nv bi (num 200) gl); [right; left; by eexists|].
    cbv zeta. destruct (f args _) as [[v|] w]; simpl.
    + do 4 right. by eexists _, v, w.
    + do 3 right; left. by eexists _, w.
  - rewrite (run_no_function bi rt doc fn args gl s m inst) by done. simpl.
    destruct (gt_nv bi _ gl); [right; left; by eexists|].
    right; right; left. by eexists.
Qed.

(** X2.  Whatever its outcome, a run of a module that declares no imports
    leaves every existing object as it was, those of the application and
    those of the platform, and adds exactly one object to the heap; it
    calls at most one function, and then the one named, with the arguments
    as given. *)
Theorem run_frame bi rt doc fn args gl s :
  (forall m, compile rt (base64_decode rt (codeWasmBase64 doc)) = Some m ->
             mod_imports m = []) ->
  let s' := (runWasmContract bi rt doc fn args gl s).2 in
  preserved (st_heap s) (st_heap s') /\
  st_world s' = st_world s /\
  dom (st_heap s') = {[ fresh (dom (st_heap s)) ]} ∪ dom (st_heap s) /\
  (calls (st_log s') = calls (st_log s) \/
   calls (st_log s') = (calls (st_log s) ++ [EvCall (ToString bi fn) args])%list).
Proof.
  intros Hno s'.
  assert (Hc1 : forall b, calls (st_log s ++ [EvCompile b])%list = calls (st_log s)).
  { intros b. unfold calls. rewrite List.filter_app. simpl. apply app_nil_r. }
  assert (Hc2 : calls (st_log (prepared rt doc s) ++ [EvCall (ToString bi fn) args])%list
                = (calls (st_log s) ++ [EvCall (ToString bi fn) args])%list).
  { unfold calls at 1. rewrite List.filter_app. fold (calls (st_log (prepared rt doc s))).
    by rewrite calls_prepared. }
  cut (preserved (st_heap s) (st_heap s') /\
       dom (st_heap s') = {[ fresh (dom (st_heap s)) ]} ∪ dom (st_heap s) /\
       (calls (st_log s') = calls (st_log s) \/
        calls (st_log s') = (calls (st_log s) ++ [EvCall (ToString bi fn) args])%list)).
  { intros (Hp & Hd & Hcalls). split; [done|]. split; [|done].
    by apply run_no_imports_world. }
  subst s'.
  destruct (run_cases bi rt doc fn args gl s)
    as [[e ->]|[[e ->]|[(res & -> & _)|[(e & w & ->)|(res & v & w & -> & _)]]]];
    simpl.
  - split; [apply preserved_alloc|]. split; [by rewrite dom_insert_L|]. left. apply Hc1.
  - split; [apply preserved_alloc|]. split; [by rewrite dom_insert_L|]. left.
    apply (calls_prepared rt doc s).
  - split; [apply preserved_alloc|]. split; [by rewrite dom_insert_L|]. left.
    apply (calls_prepared rt doc s).
  - split; [apply preserved_alloc|]. split; [by rewrite dom_insert_L|]. right.
    apply Hc2.
  - split; [apply preserved_alloc_write|]. split; [|right; apply Hc2].
    by rewrite insert_insert_eq, dom_insert_L.
Qed.

Lemma run_frame_witness :
  let s' := (runWasmContract Reference.builtins Reference.runtime
               Reference.answerDoc (Str "answer") [] (Num (num 1000))
               Reference.sampleStore).2 in
  preserved (st_heap Reference.sampleStore) (st_heap s') /\
  st_world s' = st_world Reference.sampleStore /\
  dom (st_heap s')
    = {[ fresh (dom (st_heap Reference.sampleStore)) ]}
      ∪ dom (st_heap Reference.sampleStore) /\
  (calls (st_log s') = calls (st_log Reference.sampleStore) \/
   calls (st_log s')
     = (calls (st_log Reference.sampleStore)
        ++ [EvCall (ToString Reference.builtins (Str "answer")) []])%list).
Proof.
  apply (run_frame Reference.builtins Reference.runtime Reference.answerDoc
           (Str "answer") [] (Num (num 1000)) Reference.sampleStore).
  intros m Hm. vm_compute in Hm. by injection Hm as <-.
Defined.

(** X3.  A function name that is falsy ([undefined], [null], the empty
    string, 0, ...) calls nothing, even when the module exports a function
    under the string it converts to; a run that returns then reports the
    bytecode length as gas used and a null result. *)
Theorem falsy_name_calls_nothing bi rt doc fn args gl s :
  truthy fn = false ->
  calls (st_log (runWasmContract bi rt doc fn args gl s).2) = calls (st_log s) /\
  match (runWasmContract bi rt doc fn args gl s).1 with
  | inr res =>
      usedGas res = num (Z.of_nat (length (base64_decode rt (codeWasmBase64 doc))))
      /\ result res = Null
  | inl _ => True
  end.
Proof.
  intros Ht.
  destruct (compile rt (base64_decode rt (codeWasmBase64 doc))) as [m|] eqn:Hc.
  2: { rewrite run_compile_error by done. simpl. split; [|done].
       unfold calls. rewrite List.filter_app. simpl. apply app_nil_r. }
  destruct (instantiate rt m ∅ (st_world s)).1 as [e|inst] eqn:Hi.
  { rewrite (run_instantiate_error bi rt doc fn args gl s m e) by done.
    simpl. split; [apply (calls_prepared rt doc s) | done]. }
  rewrite (run_no_function bi rt doc fn args gl s m inst) by (by rewrite ?Ht).
  simpl. destruct (gt_nv bi _ gl); simpl;
    (split; [apply (calls_prepared rt doc s) | done]).
Qed.

Lemma falsy_name_calls_nothing_witness :
  calls (st_log (runWasmContract Reference.builtins Reference.runtime
                   Reference.answerDoc (Str "") [] (Num (num 1000))
                   Reference.sampleStore).2)
    = calls (st_log Reference.sampleStore) /\
  match (runWasmContract Reference.builtins Reference.runtime
           Reference.answerDoc (Str "") [] (Num (num 1000))
           Reference.sampleStore).1 with
  | inr res =>
      usedGas res
        = num (Z.of_nat (length (base64_decode Reference.runtime
                                   (codeWasmBase64 Reference.answerDoc))))
      /\ result res = Null
  | inl _ => True
  end.
Proof.
  apply (falsy_name_calls_nothing Reference.builtins Reference.runtime
           Reference.answerDoc (Str "") [] (Num (num 1000))
           Reference.sampleStore).
  reflexivity.
Defined.

Lemma gt_nan (n x : number) : is_nan x = true -> gt n x = false.
Proof. by destruct x. Qed.

(** X4.  The gas check compares with [>], which is false against NaN: when
    the gas limit converts to NaN (a non-numeric string, [undefined], an
    object) no run fails for lack of gas, whatever the bytecode length. *)
Theorem nan_gas_limit_never_out_of_gas bi rt doc fn args gl s :
  is_nan (ToNumber bi gl) = true ->
  forall msg, (runWasmContract bi rt doc fn args gl s).1 <> inl (Error msg).
Proof.
  intros Hnan msg.
  assert (Hg : forall n, gt_nv bi n gl = false)
    by (intros n; by apply gt_nan).
  destruct (compile rt (base64_decode rt (codeWasmBase64 doc))) as [m|] eqn:Hc.
  2: { by rewrite run_compile_error. }
  destruct (instantiate rt m ∅ (st_world s)).1 as [e|inst] eqn:Hi.
  { by rewrite (run_instantiate_error bi rt doc fn args gl s m e). }
  destruct (truthy fn && typeof_function (inst_exports inst !! ToString bi fn))
    eqn:Hf.
  - apply andb_prop in Hf as [Ht Hf].
    destruct (typeof_function_callable _ Hf) as [f Hl].
    rewrite (run_function bi rt doc fn args gl s m inst f), Hg by done.
    cbv zeta. by destruct (f args _) as [[v|] w].
  - rewrite (run_no_function bi rt doc fn args gl s m inst) by done.
    cbv zeta. by rewrite Hg.
Qed.

Lemma nan_gas_limit_never_out_of_gas_witness :
  is_nan (ToNumber Reference.builtins (Str "plenty")) = true /\
  (runWasmContract Reference.builtins Reference.runtime Reference.answerDoc
     (Str "answer") [] (Str "plenty") Reference.sampleStore).1
  <> inl (Error "Out of gas before function call").
Proof.
  split; [reflexivity|].
  apply (nan_gas_limit_never_out_of_gas Reference.builtins Reference.runtime
           Reference.answerDoc (Str "answer") [] (Str "plenty")
           Reference.sampleStore).
  reflexivity.
Defined.

(** X5.  A call that traps after the gas check throws a runtime error:
    the function did run, no state and no gas figure are returned, and the
    copy the helper made still equals the prior state, without
    [lastCallResult]. *)
Theorem trapped_call_returns_no_state bi rt doc fn args gl s m inst f :
  compile rt (base64_decode rt (codeWasmBase64 doc)) = Some m ->
  (instantiate rt m ∅ (st_world s)).1 = inr inst ->
  truthy fn = true ->
  inst_exports inst !! ToString bi fn = Some (Callable f) ->
  gt_nv bi (num 200) gl = false ->
  (f args (instantiate rt m ∅ (st_world s)).2).1 = Trapped ->
  let out := runWasmContract bi rt doc fn args gl s in
  out.1 = inl RuntimeError /\
  st_heap out.2 = st_heap (prepared rt doc s) /\
  deref (st_heap out.2) (Some (fresh (dom (st_heap s))))
    = deref (st_heap s) (state doc) /\
  calls (st_log out.2)
    = (calls (st_log s) ++ [EvCall (ToString bi fn) args])%list.
Proof.
  intros Hc Hi Ht Hf Hgas Hr out. subst out.
  rewrite (run_function bi rt doc fn args gl s m inst f Hc Hi Ht Hf).
  rewrite Hgas. cbv zeta. rewrite (world_prepared rt doc s m Hc), Hr.
  simpl. split; [done|]. split; [done|].
  split; [apply deref_fresh|].
  unfold calls. rewrite !List.filter_app. simpl. by rewrite app_nil_r.
Qed.

Lemma trapped_call_returns_no_state_witness :
  let out := runWasmContract Reference.builtins Samples.runtime
               Samples.trappingDoc (Str "boom") [] (Num (num 1000))
               Reference.sampleStore in
  out.1 = inl RuntimeError /\
  st_heap out.2
    = st_heap (prepared Samples.runtime Samples.trappingDoc Reference.sampleStore) /\
  deref (st_heap out.2) (Some (fresh (dom (st_heap Reference.sampleStore))))
    = deref (st_heap Reference.sampleStore) (state Samples.trappingDoc) /\
  calls (st_log out.2)
    = (calls (st_log Reference.sampleStore) ++ [EvCall "boom" []])%list.
Proof.
  apply (trapped_call_returns_no_state Reference.builtins Samples.runtime
           Samples.trappingDoc (Str "boom") [] (Num (num 1000))
           Reference.sampleStore Samples.trappingModule
           Samples.trappingInstance
           (fun args => run_prog [] (mod_code Samples.trappingModule "boom" args)));
    vm_compute; reflexivity.
Defined.

Lemma deref_Some (h : heap) (l : loc) : deref h (Some l) = default ∅ (h !! l).
Proof. reflexivity. Qed.

(** X6.  Invoking again on the state a first invoke returned replaces the
    first result: the second state is the original state with only the
    second return value under [lastCallResult], and the state the first
    invoke returned is not written by the second. *)
Theorem second_invoke_replaces_result
    bi rt doc fn1 args1 fn2 args2 gl s m inst1 inst2 f1 f2 r1 r2 :
  let first := instantiate rt m ∅ (st_world s) in
  let second := instantiate rt m ∅ (f1 args1 first.2).2 in
  compile rt (base64_decode rt (codeWasmBase64 doc)) = Some m ->
  first.1 = inr inst1 ->
  second.1 = inr inst2 ->
  truthy fn1 = true -> truthy fn2 = true ->
  inst_exports inst1 !! ToString bi fn1 = Some (Callable f1) ->
  inst_exports inst2 !! ToString bi fn2 = Some (Callable f2) ->
  gt_nv bi (num 200) gl = false ->
  (f1 args1 first.2).1 = Returned r1 ->
  (f2 args2 second.2).1 = Returned r2 ->
  match runWasmContract bi rt doc fn1 args1 gl s with
  | (inl _, _) => False
  | (inr res1, s1) =>
      let doc' := {| codeWasmBase64 := codeWasmBase64 doc;
                     state := Some (newState res1) |} in
      match runWasmContract bi rt doc' fn2 args2 gl s1 with
      | (inl _, _) => False
      | (inr res2, s2) =>
          let prior := deref (st_heap s) (state doc) in
          result res2 = r2 /\
          deref (st_heap s2) (Some (newState res2))
            = <["lastCallResult" := r2]> prior /\
          deref (st_heap s2) (Some (newState res1))
            = <["lastCallResult" := r1]> prior
      end
  end.
Proof.
  intros first second Hc Hi1 Hi2 Ht1 Ht2 Hf1 Hf2 Hgas Hr1 Hr2.
  rewrite (run_function bi rt doc fn1 args1 gl s m inst1 f1 Hc Hi1 Ht1 Hf1).
  rewrite Hgas. cbv zeta. rewrite (world_prepared rt doc s m Hc).
  fold first. rewrite Hr1. cbv beta iota zeta. cbn [newState].
  set (l1 := fresh (dom (st_heap s))).
  set (prior := deref (st_heap s) (state doc)).
  set (s1 := {| st_heap := _; st_log := _; st_world := _ |}).
  set (doc' := {| codeWasmBase64 := codeWasmBase64 doc; state := Some l1 |}).
  assert (Hs1 : deref (st_heap s1) (Some l1) = <["lastCallResult" := r1]> prior).
  { unfold s1, deref. simpl. by rewrite lookup_insert_eq. }
  assert (Hw1 : st_world s1 = (f1 args1 first.2).2) by done.
  assert (Hi2' : (instantiate rt m ∅ (st_world s1)).1 = inr inst2)
    by (by rewrite Hw1).
  rewrite (run_function bi rt doc' fn2 args2 gl s1 m inst2 f2 Hc Hi2' Ht2 Hf2).
  rewrite Hgas. cbv zeta. rewrite (world_prepared rt doc' s1 m Hc), Hw1.
  fold second. rewrite Hr2.
  cbv beta iota zeta. cbn [result newState st_heap state doc'].
  rewrite Hs1. unfold prepared. cbn [st_heap]. split; [done|]. split.
  - rewrite insert_insert_eq, deref_fresh. apply insert_insert_eq.
  - rewrite <- Hs1, !deref_Some.
    rewrite (preserved_alloc_write (st_heap s1)); [done|].
    apply elem_of_dom. unfold s1. cbn [st_heap].
    rewrite lookup_insert_eq. by eexists.
Qed.

Lemma second_invoke_replaces_result_witness :
  match runWasmContract Reference.builtins Reference.runtime
          Reference.answerDoc (Str "answer") [] (Num (num 1000))
          Reference.sampleStore with
  | (inl _, _) => False
  | (inr res1, s1) =>
      let doc' := {| codeWasmBase64 := codeWasmBase64 Reference.answerDoc;
                     state := Some (newState res1) |} in
      match runWasmContract Reference.builtins Reference.runtime doc'
              (Str "answer") [Num (num 7)] (Num (num 1000)) s1 with
      | (inl _, _) => False
      | (inr res2, s2) =>
          let prior := deref (st_heap Reference.sampleStore)
                             (state Reference.answerDoc) in
          result res2 = Num (num 42) /\
          deref (st_heap s2) (Some (newState res2))
            = <["lastCallResult" := Num (num 42)]> prior /\
          deref (st_heap s2) (Some (newState res1))
            = <["lastCallResult" := Num (num 42)]> prior
      end
  end.
Proof.
  apply (second_invoke_replaces_result Reference.builtins Reference.runtime
           Reference.answerDoc (Str "answer") [] (Str "answer") [Num (num 7)]
           (Num (num 1000)) Reference.sampleStore Reference.answerModule
           Samples.answerInstance Samples.answerInstance
           (fun args => run_prog [] (mod_code Reference.answerModule "answer" args))
           (fun args => run_prog [] (mod_code Reference.answerModule "answer" args))
           (Num (num 42)) (Num (num 42)));
    vm_compute; reflexivity.
Defined.



(* ================================================================== *)
(** * More on the contract routes                                      *)
(* ================================================================== *)

Ltac unfold_routes :=
  unfold Server.deploy, Server.interact, Server.tryCreateTransaction,
    Server.reject_if, Server.userWalletOf;
  unfold Server.bind, Server.perform, Server.reply, Server.ret, Server.run.

(** X7.  A contract route answers 200 exactly when it has pooled a
    transaction; it then broadcasts that same transaction, once, and
    publishes nothing else.  With any other status nothing is pooled or
    broadcast. *)
Theorem published_iff_ok bi rt env chain req :
  let d := Server.run (Server.deploy bi rt env chain req) in
  let i := Server.run (Server.interact bi env chain req) in
  (if Nat.eqb (Server.status d.2) 200
   then exists tx, Published.publications d.1
                   = [Server.SetTransaction tx; Server.BroadcastTransaction tx]
   else Published.publications d.1 = []) /\
  (if Nat.eqb (Server.status i.2) 200
   then exists tx, Published.publications i.1
                   = [Server.SetTransaction tx; Server.BroadcastTransaction tx]
   else Published.publications i.1 = []).
Proof.
  split.
  - unfold_routes.
    destruct (Server.ephemeralKeys env !! _) as [eph|]; [|done].
    destruct (truthy (get (Server.body req) "rustCode")); simpl; [|done].
    destruct (negb _ || le_vn _ _ _); simpl; [done|].
    destruct (lt _ _); simpl; [done|].
    destruct (Server.cargoBuild env _) as [err| |wasm]; simpl; [done|done|].
    destruct (gt_nv _ _ _); simpl; [done|].
    destruct (Server.createTransaction env _ _ _ _) as [msg|tx0]; simpl; [done|].
    by eexists.
  - unfold_routes.
    destruct (Server.ephemeralKeys env !! _) as [eph|]; [|done].
    destruct (negb _ || negb _); simpl; [done|].
    destruct (negb _ || le_vn _ _ _); simpl; [done|].
    destruct (lt _ _); simpl; [done|].
    destruct (lt_vn _ _ _); simpl; [done|].
    destruct (Server.createTransaction env _ _ _ _) as [msg|tx0]; simpl; [done|].
    by eexists.
Qed.

(** [Number(v) || 0] leaves what it has produced as it is. *)
Lemma NumberOrZero_idempotent bi (v : value) :
  NumberOrZero bi (Num (NumberOrZero bi v)) = NumberOrZero bi v.
Proof.
  unfold NumberOrZero at 2 3.
  destruct (truthy (Num (ToNumber bi v))) eqn:Ht.
  - unfold NumberOrZero. simpl ToNumber. by rewrite Ht.
  - reflexivity.
Qed.

(** X8.  Coercing the arguments keeps their number and is idempotent:
    arguments that went through [v => Number(v) || 0] once come out
    unchanged when a pooled transaction's [functionArgs] is submitted
    again. *)
Theorem coerceArgs_idempotent bi (v : value) :
  Server.coerceArgs bi (Arr (Server.coerceArgs bi v)) = Server.coerceArgs bi v /\
  (forall l, v = Arr l -> length (Server.coerceArgs bi v) = length l).
Proof.
  split.
  - destruct v; try reflexivity. simpl. rewrite List.map_map.
    apply map_ext. intros a. by rewrite NumberOrZero_idempotent.
  - intros l ->. simpl. apply length_map.
Qed.

Ltac other_key Hk :=
  repeat (apply not_elem_of_cons in Hk as [? Hk]);
  rewrite ?lookup_insert_ne by done; reflexivity.

(** X9.  A transaction pooled by the interact route was made by the
    wallet for a logged-in user; it names a truthy contract address and
    function, carries the request's gas limit, which is neither refused as
    invalid nor below 200, is priced at the fixed gas price whatever the
    request says, and keeps every other property the wallet gave it (its
    id, input and outputs among them). *)
Theorem interact_transaction_fields bi env chain req tx :
  Server.SetTransaction tx ∈ (Server.run (Server.interact bi env chain req)).1 ->
  let body := Server.body req in
  exists eph tx0,
    Server.ephemeralKeys env !! Server.userId (Server.user req) = Some eph /\
    Server.createTransaction env
      (Server.userWalletOf env chain eph (Server.user req))
      (Server.walletAddress (Server.user req)) (num 0) chain = inr tx0 /\
    truthy (get body "contractAddress") = true /\
    truthy (get body "functionName") = true /\
    lt_vn bi (get body "gasLimit") (num 200) = false /\
    tx !! "type" = Some (Str "SMART_CONTRACT") /\
    tx !! "isDeploy" = Some (Boolean false) /\
    tx !! "contractAddress" = Some (get body "contractAddress") /\
    tx !! "functionName" = Some (get body "functionName") /\
    tx !! "gasLimit" = Some (get body "gasLimit") /\
    tx !! "gasPrice" = Some (Num Config.FIXED_GAS_PRICE) /\
    forall k, k ∉ ["type"; "isDeploy"; "contractAddress"; "functionName";
                   "functionArgs"; "gasLimit"; "gasPrice"] ->
              tx !! k = tx0 !! k.
Proof.
  intros Hin body. revert Hin. subst body. unfold_routes.
  destruct (Server.ephemeralKeys env !! _) as [eph|]; simpl;
    [|by rewrite elem_of_nil].
  destruct (truthy (get (Server.body req) "contractAddress")) eqn:Hca; simpl;
    [|by rewrite elem_of_nil].
  destruct (truthy (get (Server.body req) "functionName")) eqn:Hfn; simpl;
    [|by rewrite elem_of_nil].
  destruct (negb _ || le_vn _ _ _); simpl; [by rewrite elem_of_nil|].
  destruct (lt _ _); simpl; [by rewrite elem_of_nil|].
  destruct (lt_vn _ _ _) eqn:Hmin; simpl; [by rewrite elem_of_nil|].
  destruct (Server.createTransaction env _ _ _ _) as [msg|tx0] eqn:Htx; simpl.
  { rewrite elem_of_cons, elem_of_nil. by intros [?|[]]. }
  rewrite !elem_of_cons, elem_of_nil.
  intros [?|[?|[?|[]]]]; simplify_eq.
  exists eph, tx0. repeat (split; [done || by simplify_map_eq|]).
  intros k Hk. other_key Hk.
Qed.

Lemma interact_transaction_fields_witness :
  let tx := Reference.interactTransaction [] (Num (num 6000)) in
  exists eph tx0,
    Server.ephemeralKeys Reference.sampleEnv !! "user-1" = Some eph /\
    Server.createTransaction Reference.sampleEnv
      (Server.userWalletOf Reference.sampleEnv [] eph Reference.sampleUser)
      "04ab" (num 0) [] = inr tx0 /\
    tx !! "gasPrice" = Some (Num Config.FIXED_GAS_PRICE) /\
    tx !! "id" = tx0 !! "id".
Proof.
  destruct (interact_transaction_fields Reference.builtins Reference.sampleEnv []
              (Reference.sampleRequest (Arr []) (Num (num 6000)))
              (Reference.interactTransaction [] (Num (num 6000))))
    as (eph & tx0 & Hk & Htx & _ & _ & _ & _ & _ & _ & _ & _ & Hp & Hother).
  { vm_compute. right. left. }
  exists eph, tx0. split; [exact Hk|]. split; [exact Htx|]. split; [exact Hp|].
  apply Hother. vm_compute. intros H.
  repeat (apply elem_of_cons in H as [H|H]; [discriminate H|]).
  by apply elem_of_nil in H.
Defined.

(** X10.  A transaction pooled by the deploy route carries the base64 of
    the built artifact, whose length does not exceed the request's gas
    limit, the encoded source, the address drawn for the contract, the
    description or the empty string, the fixed gas price, and every other
    property the wallet gave it. *)
Theorem deploy_transaction_fields bi rt env chain req tx :
  Server.SetTransaction tx ∈ (Server.run (Server.deploy bi rt env chain req)).1 ->
  let body := Server.body req in
  exists eph tx0 wasm,
    Server.ephemeralKeys env !! Server.userId (Server.user req) = Some eph /\
    Server.createTransaction env
      (Server.userWalletOf env chain eph (Server.user req))
      (Server.walletAddress (Server.user req)) (num 0) chain = inr tx0 /\
    Server.cargoBuild env (get body "rustCode") = Server.Built wasm /\
    gt_nv bi (num (Z.of_nat (length wasm))) (get body "gasLimit") = false /\
    tx !! "type" = Some (Str "SMART_CONTRACT") /\
    tx !! "isDeploy" = Some (Boolean true) /\
    tx !! "contractAddress" = Some (Str (Server.freshContractAddress env)) /\
    tx !! "wasmBase64" = Some (Str (base64_encode rt wasm)) /\
    tx !! "rustSource" = Some (Server.encode env (get body "rustCode")) /\
    tx !! "gasLimit" = Some (get body "gasLimit") /\
    tx !! "gasPrice" = Some (Num Config.FIXED_GAS_PRICE) /\
    tx !! "contractDescription"
      = Some (if truthy (get body "description")
              then get body "description" else Str "") /\
    forall k, k ∉ ["type"; "isDeploy"; "contractAddress"; "wasmBase64";
                   "rustSource"; "exportedFunctions"; "gasLimit"; "gasPrice";
                   "contractDescription"] ->
              tx !! k = tx0 !! k.
Proof.
  intros Hin body. revert Hin. subst body. unfold_routes.
  destruct (Server.ephemeralKeys env !! _) as [eph|]; simpl;
    [|by rewrite elem_of_nil].
  destruct (truthy (get (Server.body req) "rustCode")); simpl;
    [|by rewrite elem_of_nil].
  destruct (negb _ || le_vn _ _ _); simpl; [by rewrite elem_of_nil|].
  destruct (lt _ _); simpl; [by rewrite elem_of_nil|].
  destruct (Server.cargoBuild env _) as [err| |wasm] eqn:Hb; simpl.
  1,2: rewrite elem_of_cons, elem_of_nil; by intros [?|[]].
  destruct (gt_nv _ _ _) eqn:Hg; simpl.
  { rewrite elem_of_cons, elem_of_nil. by intros [?|[]]. }
  destruct (Server.createTransaction env _ _ _ _) as [msg|tx0] eqn:Htx; simpl.
  { rewrite !elem_of_cons, elem_of_nil. by intros [?|[?|[]]]. }
  rewrite !elem_of_cons, elem_of_nil.
  intros [?|[?|[?|[?|[]]]]]; simplify_eq.
  exists eph, tx0, wasm. repeat (split; [done || by simplify_map_eq|]).
  intros k Hk. other_key Hk.
Qed.

Lemma deploy_transaction_fields_witness :
  let tx := Reference.deployTransaction (Num (num 6000)) in
  exists wasm,
    Server.cargoBuild Reference.sampleEnv
      (Str "#[no_mangle] pub extern fn answer() -> i32 { 42 }")
      = Server.Built wasm /\
    tx !! "wasmBase64" = Some (Str (base64_encode Reference.runtime wasm)) /\
    tx !! "gasPrice" = Some (Num Config.FIXED_GAS_PRICE).
Proof.
  destruct (deploy_transaction_fields Reference.builtins Reference.runtime
              Reference.sampleEnv []
              (Reference.sampleRequest (Arr []) (Num (num 6000)))
              (Reference.deployTransaction (Num (num 6000))))
    as (eph & tx0 & wasm & _ & _ & Hb & _ & _ & _ & _ & Hw & _ & _ & Hp & _).
  { vm_compute. right. right. left. }
  exists wasm. split; [exact Hb|]. split; [exact Hw | exact Hp].
Defined.

Lemma le_nan (a b : number) : is_nan a = true -> le a b = false.
Proof. unfold le. destruct a; try done. by destruct b. Qed.

Lemma lt_nan_l (a b : number) : is_nan a = true -> lt a b = false.
Proof. by destruct a. Qed.

Lemma lt_nan_r (a b : number) : is_nan b = true -> lt a b = false.
Proof. destruct b; try done. by destruct a. Qed.

Lemma mul_nan_l (a b : number) : is_nan a = true -> is_nan (mul a b) = true.
Proof. by destruct a. Qed.

(** X11.  A gas limit that is truthy but converts to NaN (a non-numeric
    string, an object) passes every gas check of the interact route: it is
    not refused as invalid, the fee check passes whatever the balance, and
    the minimum of 200 is not enforced, so the wallet is asked for a
    transaction. *)
Theorem interact_nan_gas_limit_passes bi env chain req eph :
  let body := Server.body req in
  Server.ephemeralKeys env !! Server.userId (Server.user req) = Some eph ->
  truthy (get body "contractAddress") = true ->
  truthy (get body "functionName") = true ->
  truthy (get body "gasLimit") = true ->
  is_nan (ToNumber bi (get body "gasLimit")) = true ->
  exists rest,
    (Server.run (Server.interact bi env chain req)).1
    = Server.CreateTransaction
        (Server.userWalletOf env chain eph (Server.user req))
        (Server.walletAddress (Server.user req)) (num 0) :: rest.
Proof.
  intros body Hk Hca Hfn Hgl Hnan. subst body. unfold_routes.
  rewrite Hk, Hca, Hfn, Hgl. simpl.
  unfold le_vn, mul_vn, lt_vn.
  rewrite (le_nan _ _ Hnan). simpl.
  rewrite (lt_nan_r _ _ (mul_nan_l _ _ Hnan)). simpl.
  rewrite (lt_nan_l _ _ Hnan). simpl.
  destruct (Server.createTransaction env _ _ _ _); simpl; by eexists.
Qed.

Lemma interact_nan_gas_limit_passes_witness :
  exists rest,
    (Server.run (Server.interact Reference.builtins Reference.sampleEnv []
                   (Reference.sampleRequest (Arr []) (Str "plenty")))).1
    = Server.CreateTransaction
        (Server.userWalletOf Reference.sampleEnv []
           {| Server.privateKey := "c0ffee"; Server.publicKey := "04ab" |}
           Reference.sampleUser)
        "04ab" (num 0) :: rest.
Proof.
  apply (interact_nan_gas_limit_passes Reference.builtins Reference.sampleEnv []
           (Reference.sampleRequest (Arr []) (Str "plenty"))
           {| Server.privateKey := "c0ffee"; Server.publicKey := "04ab" |});
    vm_compute; reflexivity.
Defined.

(** X12.  Likewise in the deploy route: with such a gas limit the crate is
    built without regard to the balance, and an artifact of any length
    passes the gas check, so the wallet is asked for a transaction. *)
Theorem deploy_nan_gas_limit_passes bi rt env chain req eph wasm :
  let body := Server.body req in
  Server.ephemeralKeys env !! Server.userId (Server.user req) = Some eph ->
  truthy (get body "rustCode") = true ->
  truthy (get body "gasLimit") = true ->
  is_nan (ToNumber bi (get body "gasLimit")) = true ->
  Server.cargoBuild env (get body "rustCode") = Server.Built wasm ->
  exists rest,
    (Server.run (Server.deploy bi rt env chain req)).1
    = Server.CargoBuild (get body "rustCode")
      :: Server.CreateTransaction
           (Server.userWalletOf env chain eph (Server.user req))
           (Server.walletAddress (Server.user req)) (num 0)
      :: rest.
Proof.
  intros body Hk Hrc Hgl Hnan Hb. subst body. unfold_routes.
  rewrite Hk, Hrc, Hgl. simpl.
  unfold le_vn, mul_vn, gt_nv.
  rewrite (le_nan _ _ Hnan). simpl.
  rewrite (lt_nan_r _ _ (mul_nan_l _ _ Hnan)). simpl.
  rewrite Hb. simpl. rewrite (gt_nan _ _ Hnan). simpl.
  destruct (Server.createTransaction env _ _ _ _); simpl; by eexists.
Qed.

Lemma deploy_nan_gas_limit_passes_witness :
  exists rest,
    (Server.run (Server.deploy Reference.builtins Reference.runtime
                   Reference.sampleEnv []
                   (Reference.sampleRequest (Arr []) (Str "plenty")))).1
    = Server.CargoBuild (Str "#[no_mangle] pub extern fn answer() -> i32 { 42 }")
      :: Server.CreateTransaction
           (Server.userWalletOf Reference.sampleEnv []
              {| Server.privateKey := "c0ffee"; Server.publicKey := "04ab" |}
              Reference.sampleUser)
           "04ab" (num 0)
      :: rest.
Proof.
  apply (deploy_nan_gas_limit_passes Reference.builtins Reference.runtime
           Reference.sampleEnv []
           (Reference.sampleRequest (Arr []) (Str "plenty"))
           {| Server.privateKey := "c0ffee"; Server.publicKey := "04ab" |}
           Reference.answerModuleBytes);
    vm_compute; reflexivity.
Defined.

(** X13.  When the build fails or leaves no artifact, the deploy route
    answers 400 with the compiler's error output, or 500, and creates no
    transaction: the build is the only thing it has done. *)
Theorem deploy_build_failure bi rt env chain req eph :
  let body := Server.body req in
  let wallet := Server.userWalletOf env chain eph (Server.user req) in
  Server.ephemeralKeys env !! Server.userId (Server.user req) = Some eph ->
  truthy (get body "rustCode") = true ->
  negb (truthy (get body "gasLimit")) || le_vn bi (get body "gasLimit") (num 0)
    = false ->
  lt (Server.wallet_balance wallet)
     (mul_vn bi (get body "gasLimit") Config.FIXED_GAS_PRICE) = false ->
  match Server.cargoBuild env (get body "rustCode") with
  | Server.BuildFailed stderr =>
      Server.run (Server.deploy bi rt env chain req)
      = ([Server.CargoBuild (get body "rustCode")],
         {| Server.status := 400; Server.json := Server.message stderr |})
  | Server.WasmMissing =>
      Server.run (Server.deploy bi rt env chain req)
      = ([Server.CargoBuild (get body "rustCode")],
         {| Server.status := 500; Server.json := Server.message "WASM missing." |})
  | Server.Built _ => True
  end.
Proof.
  intros body wallet Hk Hrc Hgl Hfunds. subst body wallet. unfold_routes.
  rewrite Hk. cbv zeta. rewrite Hrc, Hgl. simpl.
  unfold Server.userWalletOf in Hfunds. simpl in Hfunds. rewrite Hfunds. simpl.
  by destruct (Server.cargoBuild env _).
Qed.

Lemma deploy_build_failure_witness :
  Server.run (Server.deploy Reference.builtins Reference.runtime
                Samples.failingBuildEnv []
                (Reference.sampleRequest (Arr []) (Num (num 6000))))
  = ([Server.CargoBuild (Str "#[no_mangle] pub extern fn answer() -> i32 { 42 }")],
     {| Server.status := 400;
        Server.json := Server.message "error[E0425]: cannot find value" |}).
Proof.
  apply (deploy_build_failure Reference.builtins Reference.runtime
           Samples.failingBuildEnv []
           (Reference.sampleRequest (Arr []) (Num (num 6000)))
           {| Server.privateKey := "c0ffee"; Server.publicKey := "04ab" |});
    vm_compute; reflexivity.
Defined.

(** X14.  A contract the deploy route has pooled can be loaded by the
    helper under the same gas limit: where the platform's base64 decoding
    undoes its encoding of the artifact, a run without function name on
    the stored bytecode, once it compiles and links, does not run out of
    gas and reports the artifact's length, the [codeSize] of the deploy
    response, as gas used. *)
Theorem deployed_contract_loads_within_gas
    bi rt env chain req tx b64 doc args s m inst :
  Server.SetTransaction tx ∈ (Server.run (Server.deploy bi rt env chain req)).1 ->
  (forall wasm,
     Server.cargoBuild env (get (Server.body req) "rustCode") = Server.Built wasm ->
     base64_decode rt (base64_encode rt wasm) = wasm) ->
  tx !! "wasmBase64" = Some (Str b64) ->
  codeWasmBase64 doc = b64 ->
  compile rt (base64_decode rt b64) = Some m ->
  (instantiate rt m ∅ (st_world s)).1 = inr inst ->
  exists wasm,
    Server.cargoBuild env (get (Server.body req) "rustCode") = Server.Built wasm /\
    runWasmContract bi rt doc Undefined args (get (Server.body req) "gasLimit") s
    = (inr {| newState := fresh (dom (st_heap s));
              usedGas := num (Z.of_nat (length wasm));
              result := Null |}, prepared rt doc s).
Proof.
  intros Hin Hround Hb64 Hdoc Hc Hi.
  destruct (deploy_transaction_fields bi rt env chain req tx Hin)
    as (eph & tx0 & wasm & _ & _ & Hb & Hg & _ & _ & _ & Hw & _).
  exists wasm. split; [done|].
  rewrite Hw in Hb64. injection Hb64 as <-.
  pose proof (Hround wasm Hb) as Hrt.
  rewrite (run_no_function bi rt doc Undefined args _ s m inst)
    by (by rewrite ?Hdoc).
  cbv zeta. by rewrite Hdoc, Hrt, Hg.
Qed.

Lemma deployed_contract_loads_within_gas_witness :
  exists wasm,
    Server.cargoBuild Reference.sampleEnv
      (get (Server.body (Reference.sampleRequest (Arr []) (Num (num 6000))))
           "rustCode") = Server.Built wasm /\
    runWasmContract Reference.builtins Reference.runtime Reference.answerDoc
      Undefined []
      (get (Server.body (Reference.sampleRequest (Arr []) (Num (num 6000))))
           "gasLimit") Reference.sampleStore
    = (inr {| newState := fresh (dom (st_heap Reference.sampleStore));
              usedGas := num (Z.of_nat (length wasm));
              result := Null |},
       prepared Reference.runtime Reference.answerDoc Reference.sampleStore).
Proof.
  apply (deployed_contract_loads_within_gas Reference.builtins
           Reference.runtime Reference.sampleEnv []
           (Reference.sampleRequest (Arr []) (Num (num 6000)))
           (Reference.deployTransaction (Num (num 6000)))
           Reference.answerModuleBase64 Reference.answerDoc [] Reference.sampleStore
           Reference.answerModule Samples.answerInstance).
  - vm_compute. right. right. left.
  - intros wasm [= <-]. vm_compute. reflexivity.
  - vm_compute. reflexivity.
  - reflexivity.
  - vm_compute. reflexivity.
  - vm_compute. reflexivity.
Defined.

(* ================================================================== *)
(** * The wallet routes                                                *)
(* ================================================================== *)

Ltac unfold_wallet_routes :=
  unfold Transfers.transact, Transfers.walletInfo, Transfers.mineTransactions,
    Transfers.userWalletOf;
  unfold Transfers.bind, Transfers.perform, Transfers.reply, Transfers.ret,
    Transfers.run.

(** X15.  Without a session key for the user, each of the five routes
    that need one answers 401 "Re-login required." and does nothing else:
    no build, no wallet call, no mining, nothing pooled or broadcast. *)
Theorem without_session_key_nothing_happens bi rt env wenv chain req :
  Server.ephemeralKeys env !! Server.userId (Server.user req) = None ->
  Transfers.ephemeralKeys wenv !! Server.userId (Server.user req) = None ->
  let refused := {| Server.status := 401;
                    Server.json := Server.message "Re-login required." |} in
  Server.run (Server.deploy bi rt env chain req) = ([], refused) /\
  Server.run (Server.interact bi env chain req) = ([], refused) /\
  Transfers.run (Transfers.transact bi wenv chain req) = ([], refused) /\
  Transfers.run (Transfers.walletInfo wenv chain req) = ([], refused) /\
  Transfers.run (Transfers.mineTransactions wenv req) = ([], refused).
Proof.
  intros Hk Hw refused. unfold_routes. unfold_wallet_routes.
  by rewrite Hk, Hw.
Qed.

Lemma without_session_key_nothing_happens_witness :
  let req := Reference.sampleRequest (Arr []) (Num (num 6000)) in
  let refused := {| Server.status := 401;
                    Server.json := Server.message "Re-login required." |} in
  Server.run (Server.deploy Reference.builtins Reference.runtime
                Samples.loggedOutEnv [] req) = ([], refused) /\
  Server.run (Server.interact Reference.builtins Samples.loggedOutEnv [] req)
    = ([], refused) /\
  Transfers.run (Transfers.transact Reference.builtins
                   Samples.loggedOutWalletEnv [] req) = ([], refused) /\
  Transfers.run (Transfers.walletInfo Samples.loggedOutWalletEnv [] req)
    = ([], refused) /\
  Transfers.run (Transfers.mineTransactions Samples.loggedOutWalletEnv req)
    = ([], refused).
Proof.
  apply (without_session_key_nothing_happens Reference.builtins
           Reference.runtime Samples.loggedOutEnv Samples.loggedOutWalletEnv []
           (Reference.sampleRequest (Arr []) (Num (num 6000))));
    reflexivity.
Defined.

(** X16.  The transfer route hands the wallet [Number(amount)] (NaN for a
    missing or non-numeric amount) and the recipient as received.  It
    answers 200 exactly when it has pooled a transaction, which is the
    wallet's with [type] set to NORMAL and which it then broadcasts; when
    the wallet refuses, it answers 400 and publishes nothing. *)
Theorem transact_publishes_wallet_transaction bi env chain req :
  let out := Transfers.run (Transfers.transact bi env chain req) in
  (if Nat.eqb (Server.status out.2) 200
   then exists eph tx0,
     Transfers.ephemeralKeys env !! Server.userId (Server.user req) = Some eph /\
     Transfers.createTransaction env
       (Transfers.userWalletOf env chain eph (Server.user req))
       (get (Server.body req) "recipient")
       (ToNumber bi (get (Server.body req) "amount")) chain = inr tx0 /\
     Published.transfer_publications out.1
     = [Transfers.SetTransaction (<["type" := Str "NORMAL"]> tx0);
        Transfers.BroadcastTransaction (<["type" := Str "NORMAL"]> tx0)]
   else Published.transfer_publications out.1 = []) /\
  (forall w r a, Transfers.CreateTransaction w r a ∈ out.1 ->
     r = get (Server.body req) "recipient" /\
     a = ToNumber bi (get (Server.body req) "amount")).
Proof.
  unfold_wallet_routes.
  destruct (Transfers.ephemeralKeys env !! _) as [eph|]; simpl.
  2: { split; [done|]. intros w r a Hin. by apply elem_of_nil in Hin. }
  destruct (Transfers.createTransaction env _ _ _ _) as [msg|tx0] eqn:Htx; simpl.
  - split; [done|]. intros w r a. rewrite elem_of_cons, elem_of_nil.
    intros [?|[]]. by simplify_eq.
  - split; [by exists eph, tx0|]. intros w r a.
    rewrite !elem_of_cons, elem_of_nil. intros [?|[?|[?|[]]]]; by simplify_eq.
Qed.

(* ================================================================== *)
(** * Notifications                                                    *)
(* ================================================================== *)

Arguments String.eqb : simpl never.

(** X17.  [findUserIdByAddress] returns the first user, in the order of
    the entries, whose public key is the given address, and [null] exactly
    when no user has it; an address that is not a string matches
    nobody. *)
Theorem findUserIdByAddress_first_match entries (pubKey : value) :
  match Notify.findUserIdByAddress entries pubKey with
  | Some uid =>
      exists before key after_,
        entries = (before ++ (uid, key) :: after_)%list /\
        pubKey = Str (Server.publicKey key) /\
        Forall (fun e => pubKey <> Str (Server.publicKey e.2)) before
  | None =>
      Forall (fun e => pubKey <> Str (Server.publicKey e.2)) entries
  end.
Proof.
  assert (Heq : forall s v, Notify.strict_eq_str s v = true <-> v = Str s).
  { intros s v. destruct v; simpl; try (split; [done|congruence]).
    rewrite String.eqb_eq. split; congruence. }
  induction entries as [|[uid key] rest IH]; simpl; [by constructor|].
  destruct (Notify.strict_eq_str (Server.publicKey key) pubKey) eqn:Hm.
  - exists [], key, rest. split; [done|]. split; [by apply Heq | constructor].
  - assert (pubKey <> Str (Server.publicKey key)) as Hne.
    { intros H. apply Heq in H. congruence. }
    destruct (Notify.findUserIdByAddress rest pubKey) as [u|].
    + destruct IH as (before & k & after_ & -> & Hk & Hb).
      exists ((uid, key) :: before), k, after_.
      split; [done|]. split; [done|]. by constructor.
    + by constructor.
Qed.

Section NotifyFacts.
Variable bi : Builtins.
Variable randomId : nat -> string.
Variable entries : list (string * Server.EphemeralKey).
Variable originalAdd : value -> object.

Ltac unfold_notify :=
  unfold Notify.notifyMined, Notify.addNotification, Notify.slice10,
    Notify.prop;
  unfold Notify.bind, Notify.ret, Notify.throw, Notify.modify.

Lemma find_undefined : Notify.findUserIdByAddress entries Undefined = None.
Proof. by induction entries as [|[u k] rest IH]. Qed.

(** One transaction: either nothing changes, or one notification is
    added. *)
Lemma notifyMined_step tx st :
  (Notify.notifyMined bi randomId entries tx st).2 = st \/
  exists o input uid msg lnk,
    tx = Obj o /\
    Notify.strict_eq_str "REWARD" (get o "type") = false /\
    get o "input" = Obj input /\
    Notify.findUserIdByAddress entries (get input "address") = Some uid /\
    uid <> "" /\
    (Notify.notifyMined bi randomId entries tx st).2
    = (Notify.addNotification randomId uid msg lnk st).2.
Proof.
  unfold Notify.notifyMined, Notify.slice10, Notify.prop.
  unfold Notify.bind, Notify.ret, Notify.throw.
  destruct tx as [| | | | | |o]; simpl; try (by left).
  destruct (Notify.strict_eq_str "REWARD" (get o "type")) eqn:Hr; [by left|].
  destruct (get o "input") as [| | | | | |input] eqn:Hi; simpl;
    rewrite ?find_undefined; try (by left).
  destruct (Notify.findUserIdByAddress entries (get input "address"))
    as [uid|] eqn:Hf; [|by left].
  destruct (String.eqb uid "") eqn:Hu; [by left|].
  apply String.eqb_neq in Hu.
  destruct (get o "id") as [| | | |s|l|o'] eqn:Hid; simpl; try (by left).
  - right. by eexists o, input, uid, _, _.
  - right. by eexists o, input, uid, _, _.
Qed.

Lemma addNotification_notes uid msg lnk st u :
  Notify.getNotifications u (Notify.notes (Notify.addNotification randomId uid msg lnk st).2)
  = if decide (u = uid)
    then (Notify.getNotifications u (Notify.notes st)
          ++ [ {| Notify.id := randomId (Notify.drawn st);
                  Notify.message := msg; Notify.link := lnk;
                  Notify.isRead := false |} ])%list
    else Notify.getNotifications u (Notify.notes st).
Proof.
  unfold Notify.addNotification, Notify.modify, Notify.getNotifications. simpl.
  case_decide as Hu.
  - subst. rewrite lookup_insert_eq. by destruct (Notify.notes st !! uid).
  - by rewrite lookup_insert_ne.
Qed.

Lemma appends_refl st : Notify.appends st st.
Proof. split; [lia|]. intros u. done. Qed.

Lemma appends_trans st1 st2 st3 :
  Notify.appends st1 st2 -> Notify.appends st2 st3 -> Notify.appends st1 st3.
Proof.
  intros [Hd1 Hp1] [Hd2 Hp2]. split; [lia|].
  intros u. etrans; [apply Hp1 | apply Hp2].
Qed.

Lemma addNotification_appends uid msg lnk st :
  Notify.appends st (Notify.addNotification randomId uid msg lnk st).2.
Proof.
  split; [simpl; lia|]. intros u. rewrite addNotification_notes.
  case_decide; [by apply prefix_app_r | done].
Qed.

Lemma notifyMined_appends tx st :
  Notify.appends st (Notify.notifyMined bi randomId entries tx st).2 /\
  Notify.log (Notify.notifyMined bi randomId entries tx st).2 = Notify.log st.
Proof.
  destruct (notifyMined_step tx st) as [->|(o & i & u & msg & lnk & _ & _ & _ & _ & _ & ->)].
  - split; [apply appends_refl | done].
  - split; [apply addNotification_appends | done].
Qed.

Lemma forEachList_appends l : forall st,
  Notify.appends st
    (Notify.forEachList (Notify.notifyMined bi randomId entries) l st).2 /\
  Notify.log (Notify.forEachList (Notify.notifyMined bi randomId entries) l st).2
  = Notify.log st.
Proof.
  induction l as [|tx rest IH]; intros st; simpl.
  - split; [apply appends_refl | done].
  - unfold Notify.bind.
    destruct (notifyMined_appends tx st) as [Ha Hl].
    destruct (Notify.notifyMined bi randomId entries tx st) as [[e|[]] st1];
      simpl in *; [done|].
    destruct (IH st1) as [Ha' Hl'].
    split; [by eapply appends_trans | congruence].
Qed.

Lemma forEach_appends v st :
  Notify.appends st
    (Notify.forEach v (Notify.notifyMined bi randomId entries) st).2 /\
  Notify.log (Notify.forEach v (Notify.notifyMined bi randomId entries) st).2
  = Notify.log st.
Proof.
  destruct v; simpl; try (split; [apply appends_refl | done]).
  apply forEachList_appends.
Qed.

(** X18.  A mined transaction produces a notification only if it is not a
    reward and its input address is the public key of a logged-in user
    with a non-empty id; the notification, unread, is added at the end of
    that user's list and no other list changes. *)
Theorem only_logged_in_senders_are_notified tx st :
  let st' := (Notify.notifyMined bi randomId entries tx st).2 in
  st' <> st ->
  exists o input uid key n,
    tx = Obj o /\
    Notify.strict_eq_str "REWARD" (get o "type") = false /\
    get o "input" = Obj input /\
    (uid, key) ∈ entries /\
    get input "address" = Str (Server.publicKey key) /\
    uid <> "" /\
    Notify.isRead n = false /\
    Notify.id n = randomId (Notify.drawn st) /\
    Notify.getNotifications uid (Notify.notes st')
      = (Notify.getNotifications uid (Notify.notes st) ++ [n])%list /\
    forall u, u <> uid ->
      Notify.getNotifications u (Notify.notes st')
      = Notify.getNotifications u (Notify.notes st).
Proof.
  intros st' Hne. subst st'.
  destruct (notifyMined_step tx st)
    as [H|(o & input & uid & msg & lnk & -> & Hr & Hi & Hf & Hu & Hst)];
    [done|].
  pose proof (findUserIdByAddress_first_match entries (get input "address")) as Hm.
  rewrite Hf in Hm. destruct Hm as (before & key & after_ & He & Ha & _).
  eexists o, input, uid, key, _. rewrite Hst.
  split; [done|]. split; [done|]. split; [done|].
  split. { rewrite He. apply elem_of_app. right. by left. }
  split; [done|]. split; [done|].
  split; [|split; [|split]].
  3: { rewrite addNotification_notes. by rewrite decide_True. }
  - done.
  - done.
  - intros u Hu'. rewrite addNotification_notes. by rewrite decide_False.
Qed.

(** X19.  The block hooks only ever add notifications: whatever the block
    holds, and also when a malformed transaction makes the hook throw
    half-way, every user's earlier notifications are still there, in
    order and with their read flags, at the beginning of the user's
    list. *)
Theorem hooks_only_append args body block st :
  Notify.appends st (Notify.addBlock bi randomId entries originalAdd args st).2 /\
  Notify.appends st (Notify.mine bi randomId entries originalAdd body st).2 /\
  Notify.appends st (Notify.addMinedNotifications bi randomId entries block st).2.
Proof.
  assert (Hadd : forall a s0,
            Notify.appends s0 (Notify.addBlock bi randomId entries originalAdd a s0).2).
  { intros a s0. unfold Notify.addBlock, Notify.bind, Notify.emit, Notify.modify,
      Notify.ret. simpl.
    set (s1 := {| Notify.notes := _; Notify.drawn := _; Notify.log := _ |}).
    destruct (forEach_appends (get (originalAdd a) "data") s1) as [Ha _].
    destruct (Notify.forEach _ _ s1) as [[e|[]] s2]; simpl in *; exact Ha. }
  split; [apply Hadd|]. split; [|apply forEach_appends].
  unfold Notify.mine, Notify.bind, Notify.emit, Notify.modify, Notify.ret.
  pose proof (Hadd (Obj {[ "data" := get body "data" ]}) st) as Ha.
  destruct (Notify.addBlock _ _ _ _ _ st) as [[e|blk] s2]; simpl in *; exact Ha.
Qed.

(** X20.  [POST /api/mine] on a block whose data the hook can walk adds
    the block and broadcasts the chain twice, once from the hook and once
    from the route, then redirects to [/api/blocks]; when the hook throws
    (data that is not an array, a transaction without input) the block has
    been added but the chain is not broadcast at all. *)
Theorem mine_broadcasts_twice_or_not_at_all body st :
  let args := Obj {[ "data" := get body "data" ]} in
  match Notify.mine bi randomId entries originalAdd body st with
  | (inr url, st') =>
      url = "/api/blocks" /\
      Notify.log st'
      = (Notify.log st
         ++ [Notify.AddBlock args; Notify.BroadcastChain; Notify.BroadcastChain])%list
  | (inl _, st') =>
      Notify.log st' = (Notify.log st ++ [Notify.AddBlock args])%list
  end.
Proof.
  intros args.
  unfold Notify.mine, Notify.addBlock, Notify.bind, Notify.emit, Notify.modify,
    Notify.ret. simpl. fold args.
  set (s1 := {| Notify.notes := _; Notify.drawn := _; Notify.log := _ |}).
  destruct (forEach_appends (get (originalAdd args) "data") s1) as [_ Hl].
  destruct (Notify.forEach _ _ s1) as [[e|[]] s2]; simpl in *.
  - by rewrite Hl.
  - split; [done|]. rewrite Hl. unfold s1. simpl. by rewrite <- !app_assoc.
Qed.

End NotifyFacts.

Lemma only_logged_in_senders_are_notified_witness :
  exists o input uid key n,
    Samples.transferTx "NORMAL" "04ab" "6b1f2c40-0001-4aaa" = Obj o /\
    get o "input" = Obj input /\
    (uid, key) ∈ Samples.entries /\
    get input "address" = Str (Server.publicKey key) /\
    Notify.isRead n = false /\
    Notify.getNotifications uid
      (Notify.notes (Notify.notifyMined Reference.builtins Samples.randomId
                       Samples.entries
                       (Samples.transferTx "NORMAL" "04ab" "6b1f2c40-0001-4aaa")
                       Samples.sampleState).2)
    = (Notify.getNotifications uid (Notify.notes Samples.sampleState) ++ [n])%list.
Proof.
  destruct (only_logged_in_senders_are_notified Reference.builtins
              Samples.randomId Samples.entries
              (Samples.transferTx "NORMAL" "04ab" "6b1f2c40-0001-4aaa")
              Samples.sampleState)
    as (o & input & uid & key & n & Ho & _ & Hi & Hin & Ha & _ & Hr & _ & Hl & _).
  { vm_compute. intros H. discriminate H. }
  exists o, input, uid, key, n. repeat (split; [assumption|]). exact Hl.
Defined.

(** ** Marking notifications read *)

Lemma markFirst_related wanted l :
  Forall2 (fun n n' => Notify.content n = Notify.content n' /\
                       (Notify.isRead n = true -> Notify.isRead n' = true))
          l (Notify.markFirst wanted l).
Proof.
  induction l as [|x rest IH]; simpl; [constructor|].
  destruct (Notify.strict_eq_str (Notify.id x) wanted).
  - constructor; [done|]. apply Forall2_same_length_lookup.
    split; [done|]. intros j n n' H1 H2. by simplify_eq.
  - by constructor.
Qed.

Lemma setRead_related l :
  Forall2 (fun n n' => Notify.content n = Notify.content n' /\
                       (Notify.isRead n = true -> Notify.isRead n' = true))
          l (List.map Notify.setRead l).
Proof. induction l; simpl; by constructor. Qed.

(** X21.  Marking notifications read, for one id or for all, changes
    nothing but read flags, and those only from unread to read: the user's
    list keeps its length and order, and each notification its id, message
    and link.  Other users' lists are untouched, and a user who has no
    list is not given one. *)
Theorem markRead_only_sets_flags userId wanted (m : Notify.NotificationsMap) :
  let m' := Notify.markRead userId wanted m in
  Forall2 (fun n n' => Notify.content n = Notify.content n' /\
                       (Notify.isRead n = true -> Notify.isRead n' = true))
          (Notify.getNotifications userId m) (Notify.getNotifications userId m') /\
  (forall u, u <> userId -> m' !! u = m !! u) /\
  dom m' = dom m.
Proof.
  unfold Notify.markRead, Notify.getNotifications.
  destruct (m !! userId) as [arr|] eqn:Hm.
  2: { rewrite Hm. split; [constructor|]. by split. }
  assert (Hdom : forall l', dom (<[userId := l']> m) = dom m).
  { intros l'. apply dom_insert_lookup_L. by eexists. }
  destruct (Notify.strict_eq_str "all" wanted); rewrite lookup_insert_eq.
  - split; [apply setRead_related|]. split; [|apply Hdom].
    intros u Hu. by rewrite lookup_insert_ne.
  - split; [apply markFirst_related|]. split; [|apply Hdom].
    intros u Hu. by rewrite lookup_insert_ne.
Qed.

(** X22.  Marking 'all' leaves the user without unread notifications. *)
Theorem markRead_all_reads_everything userId (m : Notify.NotificationsMap) :
  Forall (fun n => Notify.isRead n = true)
         (Notify.getNotifications userId (Notify.markRead userId (Str "all") m)).
Proof.
  unfold Notify.markRead, Notify.getNotifications.
  destruct (m !! userId) as [arr|] eqn:Hm; simpl.
  - rewrite lookup_insert_eq. apply Forall_forall. intros n Hn.
    apply list_elem_of_In, in_map_iff in Hn as (n0 & <- & _). done.
  - rewrite Hm. constructor.
Qed.

Lemma markFirst_list_find (i : string) l :
  Notify.markFirst (Str i) l
  = match list_find (fun n => Notify.id n = i) l with
    | Some (j, n) => <[j := Notify.setRead n]> l
    | None => l
    end.
Proof.
  induction l as [|x rest IH]; simpl; [done|].
  case_decide as Hx.
  - subst. by rewrite String.eqb_refl.
  - destruct (String.eqb (Notify.id x) i) eqn:He.
    { by apply String.eqb_eq in He. }
    rewrite IH. by destruct (list_find _ rest) as [[j n]|].
Qed.

(** X23.  Marking one id read marks the first notification of the user
    that has this id, and only that one, even when later ones share the
    id; if none has it, or the id sent is not a string, the map is left
    exactly as it was. *)
Theorem markRead_by_id_marks_first userId wanted (m : Notify.NotificationsMap) :
  wanted <> Str "all" ->
  let l := Notify.getNotifications userId m in
  match wanted with
  | Str i =>
      match list_find (fun n => Notify.id n = i) l with
      | Some (j, n) =>
          Notify.getNotifications userId (Notify.markRead userId wanted m)
          = <[j := Notify.setRead n]> l
      | None => Notify.markRead userId wanted m = m
      end
  | _ => Notify.markRead userId wanted m = m
  end.
Proof.
  intros Hall l. subst l. unfold Notify.markRead, Notify.getNotifications.
  assert (Hsame : forall arr, Notify.markFirst wanted arr = arr ->
            m !! userId = Some arr ->
            (if Notify.strict_eq_str "all" wanted
             then <[userId := List.map Notify.setRead arr]> m
             else <[userId := Notify.markFirst wanted arr]> m) = m).
  { intros arr Hf Hm. destruct (Notify.strict_eq_str "all" wanted) eqn:Ha.
    - destruct wanted; simpl in Ha; try done. apply String.eqb_eq in Ha.
      congruence.
    - rewrite Hf. by apply insert_id. }
  assert (Hnot : forall arr, (forall s, wanted <> Str s) ->
            Notify.markFirst wanted arr = arr).
  { intros arr Hw. induction arr as [|x r IH]; simpl; [done|].
    destruct wanted; simpl; try congruence. }
  destruct wanted as [| | | |i| |];
    try (destruct (m !! userId) as [arr|] eqn:Hm; [|done];
         by apply Hsame; [apply Hnot|]).
  pose proof (markFirst_list_find i) as Hfind.
  destruct (m !! userId) as [arr|] eqn:Hm.
  - specialize (Hfind arr).
    destruct (list_find _ arr) as [[j n]|].
    + change (Notify.strict_eq_str "all" (Str i)) with (String.eqb "all" i).
      assert (String.eqb "all" i = false) as ->
        by (apply String.eqb_neq; congruence).
      by rewrite lookup_insert_eq, Hfind.
    + by apply Hsame.
  - by destruct (list_find _ []) as [[j n]|] eqn:Hf.
Qed.

Lemma markRead_by_id_marks_first_witness :
  Notify.getNotifications "user-1"
    (Notify.markRead "user-1" (Str "a1") Samples.sampleNotes)
  = [Samples.note "a1" "first" true; Samples.note "b2" "second" false;
     Samples.note "a1" "third" false].
Proof.
  exact (markRead_by_id_marks_first "user-1" (Str "a1") Samples.sampleNotes
           ltac:(discriminate)).
Defined.

(* ================================================================== *)
(** * config.js: the hash-rate thresholds; starting the server         *)
(* ================================================================== *)

Lemma split_commas_nonempty (s : string) : Tiers.split_commas s <> [].
Proof.
  destruct s as [|c rest]; simpl; [done|].
  destruct (Ascii.eqb c ","); [done|].
  by destruct (Tiers.split_commas rest).
Qed.

(** Joining what [split(',')] returns with commas gives the string
    back. *)
Lemma split_commas_join (s : string) :
  String.concat "," (Tiers.split_commas s) = s.
Proof.
  induction s as [|c rest IH]; [done|].
  pose proof (split_commas_nonempty rest) as Hne.
  cbn [Tiers.split_commas].
  destruct (Ascii.eqb c ",") eqn:Hc.
  - apply Ascii.eqb_eq in Hc. subst c.
    destruct (Tiers.split_commas rest) as [|h t]; [done|].
    cbn [String.concat]. cbn [String.concat] in IH. by rewrite IH.
  - destruct (Tiers.split_commas rest) as [|h t]; [done|].
    destruct t as [|h' t']; cbn [String.concat] in *; [congruence|].
    by rewrite <- IH.
Qed.

(** X24.  Whatever [POWER_THRESHOLDS] holds, each of the five hash-rate
    thresholds is a number greater than 0 (so never NaN): the override is
    taken only when exactly five entries remain after dropping those that
    do not parse to a positive number, and the defaults are used
    otherwise, in particular when the variable is unset or empty. *)
Theorem thresholds_always_positive trim parseInt10 (env : option string) :
  let t := Tiers.HASHRATE_THRESHOLDS trim parseInt10 env in
  (gt (Tiers.EASY_NORM t) (num 0) = true /\
   gt (Tiers.NORM_MED t) (num 0) = true /\
   gt (Tiers.MED_HIGH t) (num 0) = true /\
   gt (Tiers.HIGH_ULTRA t) (num 0) = true /\
   gt (Tiers.ULTRA_EXTR t) (num 0) = true) /\
  (t = Tiers.defaults \/
   exists s, env = Some s /\ s <> "" /\
     Tiers.parsed trim parseInt10 s
     = [Tiers.EASY_NORM t; Tiers.NORM_MED t; Tiers.MED_HIGH t;
        Tiers.HIGH_ULTRA t; Tiers.ULTRA_EXTR t]) /\
  ((env = None \/ env = Some "") -> t = Tiers.defaults).
Proof.
  assert (Hdef : gt (Tiers.EASY_NORM Tiers.defaults) (num 0) = true /\
                 gt (Tiers.NORM_MED Tiers.defaults) (num 0) = true /\
                 gt (Tiers.MED_HIGH Tiers.defaults) (num 0) = true /\
                 gt (Tiers.HIGH_ULTRA Tiers.defaults) (num 0) = true /\
                 gt (Tiers.ULTRA_EXTR Tiers.defaults) (num 0) = true)
    by (by vm_compute).
  unfold Tiers.HASHRATE_THRESHOLDS.
  destruct env as [s|]; [|split; [done|]; split; [by left | done]].
  destruct (truthy (Str s)) eqn:Ht.
  2: { split; [done|]. split; [by left | done]. }
  assert (s <> "") as Hs by (intros ->; done).
  assert (Hpos : forall x, In x (Tiers.parsed trim parseInt10 s) ->
                           gt x (num 0) = true).
  { intros x Hx. unfold Tiers.parsed in Hx. by apply List.filter_In in Hx as [_ ?]. }
  destruct (Tiers.parsed trim parseInt10 s) as [|a [|b [|c [|d [|e [|f r]]]]]] eqn:Hp;
    try (split; [done|]; split; [by left|]; by intros [|[= ->]]).
  simpl. split.
  - repeat split; apply Hpos; simpl; auto 6.
  - split; [right; by exists s|]. by intros [|[= ->]].
Qed.

(** X25.  The node fetches chain and pool from its peer exactly when the
    environment variable [PORT] is set to a non-empty string: the port is
    compared with the number 3000 by [!==], which a string never equals,
    so a node started with [PORT=3000] does synchronise while a node with
    no [PORT] does not. *)
Theorem sync_iff_port_variable_set (envPort : option string) :
  (Startup.SyncChains ∈ Startup.start envPort <->
   exists s, envPort = Some s /\ s <> "") /\
  (Startup.SyncPool ∈ Startup.start envPort <->
   Startup.SyncChains ∈ Startup.start envPort) /\
  Startup.start (Some "3000")
    = [Startup.Listen (Str "3000"); Startup.SyncChains; Startup.SyncPool;
       Startup.P2pListen] /\
  Startup.start None = [Startup.Listen (Num (num 3000)); Startup.P2pListen].
Proof.
  assert (Hno : forall p,
            (Startup.SyncChains ∉ [Startup.Listen p; Startup.P2pListen]) /\
            (Startup.SyncPool ∉ [Startup.Listen p; Startup.P2pListen])).
  { intros p. split; intros H;
      repeat (apply elem_of_cons in H as [H|H]; [discriminate H|]);
      by apply elem_of_nil in H. }
  assert (Hyes : forall p,
            Startup.SyncChains ∈ [Startup.Listen p; Startup.SyncChains;
                                  Startup.SyncPool; Startup.P2pListen] /\
            Startup.SyncPool ∈ [Startup.Listen p; Startup.SyncChains;
                                Startup.SyncPool; Startup.P2pListen]).
  { intros p. split; [right; left | right; right; left]. }
  assert (H3000 : Startup.not_3000 (Num (num 3000)) = false) by (by vm_compute).
  split; [|split; [|split; by vm_compute]].
  - unfold Startup.start, Startup.PORT, truthy.
    destruct envPort as [s|].
    + destruct (String.eqb s "") eqn:He; cbn [negb].
      * apply String.eqb_eq in He. subst. rewrite H3000. cbn [app]. split.
        -- intros H. by apply (Hno (Num (num 3000))) in H.
        -- by intros (s & [= <-] & Hs).
      * apply String.eqb_neq in He. split; [by exists s|].
        intros _. apply (Hyes (Str s)).
    + rewrite H3000. cbn [app]. split.
      * intros H. by apply (Hno (Num (num 3000))) in H.
      * by intros (s & [=] & _).
  - unfold Startup.start.
    destruct (Startup.not_3000 (Startup.PORT envPort)); simpl.
    + split; intros _; apply (Hyes (Startup.PORT envPort)).
    + split; intros H; by apply (Hno (Startup.PORT envPort)) in H.
Qed.
